(** * DisplayShelf: the slanted-shelf panel generator of boxes

    A shallow embedding of [boxes/generators/displayshelf.py] and the
    properties of its layout.

    Numbers.  The generator computes with Python floats and the functions of
    the [math] module.  They are read here as real numbers: [float] is [R],
    [math.sin], [math.cos], [math.tan] and [math.sqrt] are the functions of
    the same name on [R], and [int] is [Z], injected by [IZR] where Python
    converts.  Rounding, overflow, infinities and NaN are outside this
    reading.  What Python raises is kept: a true division by zero raises
    [ZeroDivisionError], a square root of a negative number [ValueError].
    On the reals the cosine vanishes at a right angle and the sine at a
    straight one, and a naive cut can equal the width exactly, where the
    floats of the program are a rounding away; the statements below are
    made away from those points, the sine of angle [0] apart, which is
    zero for the program too.

    Effects.  A method of the generator reads and assigns attributes of
    [self], asks the framework to draw, and may raise.  It is a computation
    [M O A]: from the attributes it yields the attributes afterwards, the
    requests of kind [O] it made, in order, and either the exception raised
    or a result. *)

From Stdlib Require Import Reals Lra Lia ZArith String List Bool.
From Stdlib Require Import DecimalString Ascii.
Import ListNotations.

Open Scope R_scope.

(** ** Python numbers *)

Module Py.

Inductive exn : Type :=
| ZeroDivisionError
| ValueError.

(** [a / b] on floats, or a float and an int. *)
Definition truediv (a b : R) : exn + R :=
  if Req_dec_T b 0 then inl ZeroDivisionError else inr (a / b).

(** [math.sqrt]: a math domain error below zero. *)
Definition math_sqrt (a : R) : exn + R :=
  if Rlt_dec a 0 then inl ValueError else inr (sqrt a).

(** [math.radians]. *)
Definition math_radians (deg : R) : R := deg * (PI / 180).

(** The builtin [max(a, b)] keeps its first argument unless the second is
    strictly greater. *)
Definition max (a b : R) : R := if Rlt_dec a b then b else a.

(** Truth value of a float in [if v:]. *)
Definition truthy (v : R) : bool := if Req_dec_T v 0 then false else true.

(** [range(n)] for an int [n]: empty when [n <= 0]. *)
Definition range (n : Z) : list Z := map Z.of_nat (seq 0 (Z.to_nat n)).

(** [str(n)] for an int, as an f-string formats it. *)
Definition str (n : Z) : string := NilZero.string_of_int (Z.to_int n).

End Py.

(** ** The generator object and what it asks of the framework *)

(** The attributes of a [DisplayShelf] instance.  The first ten are the
    parsed arguments; [radians] and [sl] are assigned by [render] before any
    method reads them. *)
Record Self : Type := mkSelf {
  x : R;
  y : R;
  h : R;
  thickness : R;
  outside : bool;
  num : Z;
  front_wall_height : R;
  angle : R;
  include_back : bool;
  slope_top : bool;
  radians : R;
  sl : R
}.

Definition set_radians (s : Self) (a : R) : Self :=
  mkSelf (x s) (y s) (h s) (thickness s) (outside s) (num s)
         (front_wall_height s) (angle s) (include_back s) (slope_top s)
         a (sl s).

Definition set_sl (s : Self) (v : R) : Self :=
  mkSelf (x s) (y s) (h s) (thickness s) (outside s) (num s)
         (front_wall_height s) (angle s) (include_back s) (slope_top s)
         (radians s) v.

(** One call [self.fingerHolesAt(x, y, length, angle)]. *)
Record Hole : Type := mkHole {
  pos_x : R;
  pos_y : R;
  hole_length : R;
  hole_angle : R
}.

(** One wall handed to the framework, with the holes its callback asked
    for while the wall was traced. *)
Inductive Panel : Type :=
| RectangularWall (width height : R) (edges : string)
                  (holes : list Hole) (move label : string)
| PolygonWall (borders : list R) (edge : string)
              (holes : list Hole) (move label : string).

Definition panel_label (p : Panel) : string :=
  match p with
  | RectangularWall _ _ _ _ _ l => l
  | PolygonWall _ _ _ _ l => l
  end.

Definition panel_holes (p : Panel) : list Hole :=
  match p with
  | RectangularWall _ _ _ hs _ _ => hs
  | PolygonWall _ _ hs _ _ => hs
  end.

Definition panel_edges (p : Panel) : string :=
  match p with
  | RectangularWall _ _ e _ _ _ => e
  | PolygonWall _ e _ _ _ => e
  end.

(** ** Methods as computations *)

Module Run.

Record Outcome (O A : Type) : Type := mkOutcome {
  self_after : Self;
  emitted : list O;
  result : Py.exn + A
}.
Arguments mkOutcome {O A}.
Arguments self_after {O A}.
Arguments emitted {O A}.
Arguments result {O A}.

Definition M (O A : Type) : Type := Self -> Outcome O A.

Definition ret {O A} (a : A) : M O A :=
  fun s => mkOutcome s [] (inr a).

Definition bind {O A B} (m : M O A) (f : A -> M O B) : M O B :=
  fun s =>
    let r := m s in
    match result r with
    | inl e => mkOutcome (self_after r) (emitted r) (inl e)
    | inr a =>
        let r' := f a (self_after r) in
        mkOutcome (self_after r') (emitted r ++ emitted r') (result r')
    end.

(** A value of an expression that may raise. *)
Definition eval {O A} (v : Py.exn + A) : M O A :=
  fun s => mkOutcome s [] v.

Definition get_self {O} : M O Self :=
  fun s => mkOutcome s [] (inr s).

Definition assign {O} (upd : Self -> Self) : M O unit :=
  fun s => mkOutcome (upd s) [] (inr tt).

Definition emit {O} (o : O) : M O unit :=
  fun s => mkOutcome s [o] (inr tt).

(** [for v in vs: body]. *)
Fixpoint for_each {O A} (vs : list A) (body : A -> M O unit) : M O unit :=
  match vs with
  | [] => ret tt
  | v :: vs' => bind (body v) (fun _ => for_each vs' body)
  end.

(** [if c: body], nothing otherwise. *)
Definition when {O} (c : bool) (body : M O unit) : M O unit :=
  if c then body else ret tt.

End Run.

Import Run.

Declare Scope py_scope.
Delimit Scope py_scope with py.
Notation "v <- m ;; k" := (bind m (fun v => k))
  (at level 61, m at next level, right associativity) : py_scope.
Notation "' pat <- m ;; k" := (bind m (fun v => match v with pat => k end))
  (at level 61, pat pattern, m at next level, right associativity) : py_scope.
Notation "m ;; k" := (bind m (fun _ => k))
  (at level 61, right associativity) : py_scope.
Open Scope py_scope.

(** ** The framework *)

(** Modelled from the spec: [Boxes.fingerHolesAt] is the framework
    primitive that cuts a finger-joint hole of a given length and orientation
    at an anchor on the panel being traced; the request is recorded. *)
Definition fingerHolesAt (px py length ang : R) : M Hole unit :=
  emit (mkHole px py length ang).

(** Modelled from the spec: the walls of the framework trace a boundary and
    invoke the hole-placement callbacks supplied, once per panel, before the
    panel is finished.  The callbacks run on the generator as it is; what
    they raise propagates and the panel is not finished. *)
Definition traced {A} (callback : list (M Hole unit))
    (finish : list Hole -> M Panel A) : M Panel A :=
  fun s =>
    let r := for_each callback (fun cb => cb) s in
    match result r with
    | inl e => mkOutcome (self_after r) [] (inl e)
    | inr _ => finish (emitted r) (self_after r)
    end.

(** Modelled from the spec: [Boxes.rectangularWall(x, y, edges, callback,
    move, label)]. *)
Definition rectangularWall (w ht : R) (edges : string)
    (callback : list (M Hole unit)) (move label : string) : M Panel unit :=
  traced callback (fun hs => emit (RectangularWall w ht edges hs move label)).

(** Modelled from the spec: [Boxes.polygonWall(borders, edge, callback,
    move, label)], whose [borders] alternate edge lengths and turn
    angles. *)
Definition polygonWall (borders : list R) (edge : string)
    (callback : list (M Hole unit)) (move label : string) : M Panel unit :=
  traced callback (fun hs => emit (PolygonWall borders edge hs move label)).

(** ** The generator *)

Definition generate_finger_holes : M Hole unit :=
  self <- get_self ;;
  let t := thickness self in
  let a := radians self in
  let hs := (sl self + t) * sin a + cos a * t in
  for_each (Py.range (num self)) (fun i =>
    let pos_x := Rabs (0.5 * t * sin a) in
    tier <- eval (Py.truediv (IZR i * (h self - Rabs hs))
                             (IZR (num self) - 0.5)) ;;
    let pos_y := hs - cos a * 0.5 * t + tier in
    let pos_y := if Rlt_dec a 0 then pos_y + - sin a * sl self else pos_y in
    fingerHolesAt pos_x pos_y (sl self) (- angle self) ;;
    let pos_x := pos_x + (cos (- a) * (sl self + 0.5 * t) + sin a * 0.5 * t) in
    let pos_y := pos_y + (sin (- a) * (sl self + 0.5 * t) + cos a * 0.5 * t) in
    fingerHolesAt pos_x pos_y (front_wall_height self) (90 - angle self)).

Definition generate_sloped_sides (width height : R) : M Panel unit :=
  self <- get_self ;;
  top_segment_height <- eval (Py.truediv height (IZR (num self))) ;;
  let a := radians self in
  (* Maximum size to cut out *)
  let vertical_cut := top_segment_height - front_wall_height self in
  hypotenuse <- eval (Py.truediv vertical_cut (sin a)) ;;
  horizontal_cut <- eval (Py.math_sqrt (hypotenuse ^ 2 - vertical_cut ^ 2)) ;;
  '(horizontal_cut, vertical_cut, hypotenuse) <-
    (if Rlt_dec width horizontal_cut then
       (* Shrink the cut to keep the full height *)
       let horizontal_cut := width - 1 in (* keep a 1mm edge on the top *)
       let vertical_cut := horizontal_cut * tan a in
       hypotenuse <- eval (Py.math_sqrt (horizontal_cut ^ 2 + vertical_cut ^ 2)) ;;
       ret (horizontal_cut, vertical_cut, hypotenuse)
     else ret (horizontal_cut, vertical_cut, hypotenuse)) ;;
  let top := width - horizontal_cut in
  let front := height - vertical_cut in
  let borders := [width; 90; front; 90 - angle self; hypotenuse; angle self;
                  top; 90; height; 90] in
  let edges := if include_back self then "eeeef"%string else "e"%string in
  polygonWall borders edges [generate_finger_holes] "up" "left side" ;;
  polygonWall borders edges [generate_finger_holes] "up" "right side".

Definition generate_rectangular_sides (width height : R) : M Panel unit :=
  self <- get_self ;;
  let edges := "eeee"%string in
  let edges := if include_back self then "eeef"%string else edges in
  rectangularWall width height edges [generate_finger_holes] "up" "left side" ;;
  rectangularWall width height edges [generate_finger_holes] "up" "right side".

Definition generate_shelves : M Panel unit :=
  self <- get_self ;;
  if Py.truthy (front_wall_height self) then
    for_each (Py.range (num self)) (fun i =>
      rectangularWall (x self) (sl self) "ffef" [] "up"
                      ("shelf " ++ Py.str (i + 1)) ;;
      rectangularWall (x self) (front_wall_height self) "Ffef" [] "up"
                      ("front lip " ++ Py.str (i + 1)))
  else
    for_each (Py.range (num self)) (fun i =>
      rectangularWall (x self) (sl self) "Efef" [] "up"
                      ("shelf " ++ Py.str (i + 1))).

Section Render.

(** [Boxes.adjustSize], the outer-to-inner adjustment of a dimension, is
    supplied by the framework; it may read the attributes. *)
Variable adjustSize : Self -> R -> R.

Definition render : M Panel unit :=
  self <- get_self ;;
  (* adjust to the variables you want in the local scope *)
  let '(x, y, h) := (x self, y self, h self) in
  let front := front_wall_height self in
  let thickness := thickness self in
  let x := if outside self then adjustSize self x else x in
  let y := if outside self
           then if include_back self then adjustSize self y else y
           else y in
  let a := Py.math_radians (angle self) in
  assign (fun s => set_radians s a) ;;
  slant <- eval (Py.truediv
                   (y - thickness * (cos a + Rabs (sin a))
                      - Py.max 0 (sin a * front))
                   (cos a)) ;;
  assign (fun s => set_sl s slant) ;;
  (* render your parts here *)
  (if slope_top self
   then generate_sloped_sides y h
   else generate_rectangular_sides y h) ;;
  generate_shelves ;;
  when (include_back self)
       (rectangularWall x h "eFeF" [] "up" "back wall").

End Render.

(** ** What the generator emits, in closed form

    The definitions below describe the requests of each method as lists;
    the lemmas of the second part show that the methods emit exactly
    these. *)

(** Vertical offset of the first shelf seat. *)
Definition seat_offset (s : Self) : R :=
  (sl s + thickness s) * sin (radians s) + cos (radians s) * thickness s.

(** Anchor height of the shelf seat of tier [i]. *)
Definition seat_y (s : Self) (i : Z) : R :=
  let base := seat_offset s - cos (radians s) * 0.5 * thickness s
              + IZR i * (h s - Rabs (seat_offset s)) / (IZR (num s) - 0.5) in
  if Rlt_dec (radians s) 0 then base + - sin (radians s) * sl s else base.

Definition shelf_seat (s : Self) (i : Z) : Hole :=
  mkHole (Rabs (0.5 * thickness s * sin (radians s)))
         (seat_y s i) (sl s) (- angle s).

Definition lip_seat (s : Self) (i : Z) : Hole :=
  mkHole (Rabs (0.5 * thickness s * sin (radians s))
          + (cos (- radians s) * (sl s + 0.5 * thickness s)
             + sin (radians s) * 0.5 * thickness s))
         (seat_y s i
          + (sin (- radians s) * (sl s + 0.5 * thickness s)
             + cos (radians s) * 0.5 * thickness s))
         (front_wall_height s) (90 - angle s).

Definition seats (s : Self) : list Hole :=
  flat_map (fun i => [shelf_seat s i; lip_seat s i]) (Py.range (num s)).

Definition rectangular_sides (s : Self) (width height : R) : list Panel :=
  let edges := if include_back s then "eeef"%string else "eeee"%string in
  [RectangularWall width height edges (seats s) "up" "left side";
   RectangularWall width height edges (seats s) "up" "right side"].

(** The cut of the sloped silhouette, before and after the fallback. *)
Definition naive_vertical_cut (s : Self) (height : R) : R :=
  height / IZR (num s) - front_wall_height s.

Definition naive_hypotenuse (s : Self) (height : R) : R :=
  naive_vertical_cut s height / sin (radians s).

Definition naive_horizontal_cut (s : Self) (height : R) : R :=
  sqrt (naive_hypotenuse s height ^ 2 - naive_vertical_cut s height ^ 2).

Definition horizontal_cut (s : Self) (width height : R) : R :=
  if Rlt_dec width (naive_horizontal_cut s height)
  then width - 1 else naive_horizontal_cut s height.

Definition vertical_cut (s : Self) (width height : R) : R :=
  if Rlt_dec width (naive_horizontal_cut s height)
  then (width - 1) * tan (radians s) else naive_vertical_cut s height.

Definition hypotenuse (s : Self) (width height : R) : R :=
  if Rlt_dec width (naive_horizontal_cut s height)
  then sqrt ((width - 1) ^ 2 + ((width - 1) * tan (radians s)) ^ 2)
  else naive_hypotenuse s height.

Definition sloped_borders (s : Self) (width height : R) : list R :=
  [width; 90; height - vertical_cut s width height; 90 - angle s;
   hypotenuse s width height; angle s;
   width - horizontal_cut s width height; 90; height; 90].

Definition sloped_sides (s : Self) (width height : R) : list Panel :=
  let edges := if include_back s then "eeeef"%string else "e"%string in
  [PolygonWall (sloped_borders s width height) edges (seats s)
               "up" "left side";
   PolygonWall (sloped_borders s width height) edges (seats s)
               "up" "right side"].

Definition shelf_board (s : Self) (edges : string) (i : Z) : Panel :=
  RectangularWall (x s) (sl s) edges [] "up" ("shelf " ++ Py.str (i + 1)).

Definition lip_board (s : Self) (i : Z) : Panel :=
  RectangularWall (x s) (front_wall_height s) "Ffef" [] "up"
                  ("front lip " ++ Py.str (i + 1)).

Definition shelf_boards (s : Self) : list Panel :=
  if Py.truthy (front_wall_height s)
  then flat_map (fun i => [shelf_board s "ffef" i; lip_board s i])
                (Py.range (num s))
  else flat_map (fun i => [shelf_board s "Efef" i]) (Py.range (num s)).

Section Layout.

Variable adjustSize : Self -> R -> R.

(** The values [render] keeps in its local [x] and [y]. *)
Definition inner_x (s : Self) : R :=
  if outside s then adjustSize s (x s) else x s.

Definition depth (s : Self) : R :=
  if outside s
  then if include_back s then adjustSize s (y s) else y s
  else y s.

Definition slant_length (s : Self) : R :=
  (depth s
   - thickness s * (cos (Py.math_radians (angle s))
                    + Rabs (sin (Py.math_radians (angle s))))
   - Py.max 0 (sin (Py.math_radians (angle s)) * front_wall_height s))
  / cos (Py.math_radians (angle s)).

(** The attributes once [render] has assigned [radians] and [sl]. *)
Definition resolved (s : Self) : Self :=
  set_sl (set_radians s (Py.math_radians (angle s))) (slant_length s).

Definition side_panels (s : Self) : list Panel :=
  if slope_top s
  then sloped_sides (resolved s) (depth s) (h s)
  else rectangular_sides (resolved s) (depth s) (h s).

Definition back_wall (s : Self) : list Panel :=
  if include_back s
  then [RectangularWall (inner_x s) (h s) "eFeF" [] "up" "back wall"]
  else [].

Definition layout (s : Self) : list Panel :=
  side_panels s ++ shelf_boards (resolved s) ++ back_wall s.

(** What makes every division of [render] defined. *)
Definition renders (s : Self) : Prop :=
  cos (Py.math_radians (angle s)) <> 0 /\
  (slope_top s = true ->
   num s <> 0%Z /\ sin (Py.math_radians (angle s)) <> 0).

End Layout.

(** ** Reading the panels *)

Definition panel_size (p : Panel) : option (R * R) :=
  match p with
  | RectangularWall w ht _ _ _ _ => Some (w, ht)
  | PolygonWall _ _ _ _ _ => None
  end.

Definition panel_borders (p : Panel) : list R :=
  match p with
  | RectangularWall _ _ _ _ _ _ => []
  | PolygonWall b _ _ _ _ => b
  end.

(** A polygon's [borders] alternate an edge length and the turn at its
    end. *)
Fixpoint edge_lengths (b : list R) : list R :=
  match b with
  | l :: _ :: b' => l :: edge_lengths b'
  | _ => []
  end.


(** The top edge of a sloped side: the fourth edge of its boundary. *)
Definition top_edge (p : Panel) : option R :=
  nth_error (edge_lengths (panel_borders p)) 3.

Definition is_side_panel (p : Panel) : bool :=
  String.eqb (panel_label p) "left side"
  || String.eqb (panel_label p) "right side".

Definition is_shelf_board (p : Panel) : bool :=
  String.prefix "shelf " (panel_label p).

Definition is_lip_board (p : Panel) : bool :=
  String.prefix "front lip " (panel_label p).

(** Anchor height of the shelf seat of tier [i] on the first panel of a
    layout. *)
Definition first_panel_seat_y (out : list Panel) (i : Z) : option R :=
  match out with
  | p :: _ => option_map pos_y (nth_error (panel_holes p) (2 * Z.to_nat i))
  | [] => None
  end.

(** ** Configurations *)

(** Modelled from the spec: the outer-to-inner adjustment of the framework
    reduces a dimension by the material-thickness allowance; between two
    walls both thicknesses are taken off. *)
Definition adjustSize_walls (s : Self) (l : R) : R := l - 2 * thickness s.

(** The default arguments of the generator, with a material 3 thick. *)
Definition default_shelf : Self :=
  mkSelf 400 100 300 3 true 3 20 30 false false 0 0.

(** The same, leaning backwards. *)
Definition backward_shelf : Self :=
  mkSelf 400 100 300 3 true 3 20 (-30) false false 0 0.

(** The same as [default_shelf], with sloped sides. *)
Definition sloped_shelf : Self :=
  mkSelf 400 100 300 3 true 3 20 30 false true 0 0.

(** Sloped sides on a panel half a unit deep. *)
Definition shallow_sloped_shelf : Self :=
  mkSelf 400 0.5 300 3 true 3 20 30 false true 0 0.

(** No front lips. *)
Definition lipless_shelf : Self :=
  mkSelf 400 100 300 3 true 3 0 30 false false 0 0.

(** No shelves at all, floors level. *)
Definition empty_shelf : Self :=
  mkSelf 400 100 300 3 true 0 20 0 false false 0 0.

(** Deeper than the material allows: the slant length is negative. *)
Definition cramped_shelf : Self :=
  mkSelf 400 1 300 3 true 3 20 0 false false 0 0.

(** Outer dimensions with a back wall. *)
Definition backed_shelf : Self :=
  mkSelf 400 100 300 3 true 3 20 30 true false 0 0.


(** Sloped sides and no shelves at all. *)
Definition empty_sloped_shelf : Self :=
  mkSelf 400 100 300 3 true 0 20 30 false true 0 0.

(** Sloped sides with level floors. *)
Definition level_sloped_shelf : Self :=
  mkSelf 400 100 300 3 true 3 20 0 false true 0 0.

(** The left side of the default shelf: a plain 100 x 300 wall. *)
Definition default_left_side : Panel :=
  RectangularWall 100 300 "eeee"
                  (seats (resolved adjustSize_walls default_shelf))
                  "up" "left side".

(** The left side of the default shelf with sloped sides. *)
Definition sloped_left_side : Panel :=
  PolygonWall (sloped_borders (resolved adjustSize_walls sloped_shelf)
                              100 300)
              "e" (seats (resolved adjustSize_walls sloped_shelf))
              "up" "left side".

(** ** Further readings and configurations *)

(** The same generator with its floors at another angle. *)
Definition with_angle (s : Self) (deg : R) : Self :=
  mkSelf (x s) (y s) (h s) (thickness s) (outside s) (num s)
         (front_wall_height s) deg (include_back s) (slope_top s)
         (radians s) (sl s).

(** How many edges of an edge string are of one type. *)
Fixpoint count_letter (c : Ascii.ascii) (t : string) : nat :=
  match t with
  | EmptyString => 0
  | String d t' => (if Ascii.eqb c d then 1 else 0) + count_letter c t'
  end.

(** The labels of the boards of tier [i]. *)
Definition tier_labels (s : Self) (i : Z) : list string :=
  if Req_dec_T (front_wall_height s) 0
  then ["shelf " ++ Py.str (i + 1)]%string
  else ["shelf " ++ Py.str (i + 1); "front lip " ++ Py.str (i + 1)]%string.

(** The default shelf with level floors. *)
Definition level_shelf : Self :=
  mkSelf 400 100 300 3 true 3 20 0 false false 0 0.

(** * Properties *)

(** ** Running the computations *)

Section Laws.

Context {O : Type}.

Lemma bind_ok {A B} (m : M O A) (f : A -> M O B) (s s' : Self)
    (out : list O) (a : A) :
  m s = mkOutcome s' out (inr a) ->
  bind m f s =
    mkOutcome (self_after (f a s')) (out ++ emitted (f a s'))
              (result (f a s')).
Proof. intros E. unfold bind. rewrite E. reflexivity. Qed.

Lemma bind_raise {A B} (m : M O A) (f : A -> M O B) (s s' : Self)
    (out : list O) (e : Py.exn) :
  m s = mkOutcome s' out (inl e) ->
  bind m f s = mkOutcome s' out (inl e).
Proof. intros E. unfold bind. rewrite E. reflexivity. Qed.

Lemma outcome_eta {A} (r : Outcome O A) :
  mkOutcome (self_after r) (emitted r) (result r) = r.
Proof. destruct r. reflexivity. Qed.

(** A loop whose body only emits runs to its end, leaves the attributes
    alone and emits the bodies' requests in order. *)
Lemma for_each_emits {A} (vs : list A) (body : A -> M O unit)
    (out : A -> list O) (s : Self) :
  (forall v, In v vs -> body v s = mkOutcome s (out v) (inr tt)) ->
  for_each vs body s = mkOutcome s (flat_map out vs) (inr tt).
Proof.
  induction vs as [|v vs IH]; intros Hbody; simpl.
  - reflexivity.
  - rewrite (bind_ok _ _ s s (out v) tt) by (apply Hbody; now left).
    rewrite IH by (intros w Hw; apply Hbody; now right).
    reflexivity.
Qed.

End Laws.

Lemma range_length (n : Z) : length (Py.range n) = Z.to_nat n.
Proof. unfold Py.range. now rewrite length_map, length_seq. Qed.

Lemma range_nth (n i : Z) :
  (0 <= i < n)%Z -> nth_error (Py.range n) (Z.to_nat i) = Some i.
Proof.
  intros Hi. unfold Py.range.
  rewrite nth_error_map, nth_error_seq.
  destruct (Nat.ltb_spec (Z.to_nat i) (Z.to_nat n)) as [_|Hge]; [|lia].
  simpl. now rewrite Z2Nat.id by lia.
Qed.

Lemma range_In (n i : Z) : In i (Py.range n) <-> (0 <= i < n)%Z.
Proof.
  unfold Py.range. rewrite in_map_iff. split.
  - intros [k [<- Hk]]. apply in_seq in Hk. lia.
  - intros Hi. exists (Z.to_nat i). split; [lia|]. apply in_seq. lia.
Qed.

(** [num - 0.5] is never zero for an int [num]. *)
Lemma half_off (n : Z) : IZR n - 0.5 <> 0.
Proof.
  intros H.
  assert (E : IZR (2 * n) = IZR 1) by (rewrite mult_IZR; lra).
  apply eq_IZR in E. lia.
Qed.

Lemma truediv_ok (a b : R) : b <> 0 -> Py.truediv a b = inr (a / b).
Proof. intros Hb. unfold Py.truediv. now destruct (Req_dec_T b 0). Qed.

Lemma truediv_zero (a : R) : Py.truediv a 0 = inl Py.ZeroDivisionError.
Proof. unfold Py.truediv. now destruct (Req_dec_T 0 0). Qed.

Lemma max_0_Rmax (v : R) : Py.max 0 v = Rmax 0 v.
Proof.
  unfold Py.max, Rmax.
  destruct (Rlt_dec 0 v), (Rle_dec 0 v); try reflexivity; lra.
Qed.

(** ** The joint holes of one side panel *)

(** The hole placer never raises and leaves the attributes alone. *)
Lemma generate_finger_holes_run (s : Self) :
  generate_finger_holes s = mkOutcome s (seats s) (inr tt).
Proof.
  unfold generate_finger_holes, seats.
  rewrite (bind_ok _ _ s s [] s) by reflexivity.
  rewrite for_each_emits
    with (out := fun i => [shelf_seat s i; lip_seat s i]);
    [reflexivity|].
  intros i _. rewrite truediv_ok by apply half_off.
  unfold shelf_seat, lip_seat, seat_y, seat_offset.
  destruct (Rlt_dec (radians s) 0); reflexivity.
Qed.

Lemma seats_length (s : Self) : length (seats s) = (2 * Z.to_nat (num s))%nat.
Proof.
  unfold seats. rewrite <- (range_length (num s)).
  induction (Py.range (num s)) as [|i l IH]; simpl; [reflexivity|].
  rewrite IH. lia.
Qed.

Lemma seats_nth (s : Self) (i : Z) :
  (0 <= i < num s)%Z ->
  nth_error (seats s) (2 * Z.to_nat i) = Some (shelf_seat s i) /\
  nth_error (seats s) (2 * Z.to_nat i + 1) = Some (lip_seat s i).
Proof.
  intros Hi. unfold seats.
  pose proof (range_nth (num s) i Hi) as Hn.
  revert Hn. generalize (Z.to_nat i) as k. generalize (Py.range (num s)) as l.
  induction l as [|j l IH]; intros k Hn.
  - destruct k; discriminate.
  - destruct k as [|k]; simpl in Hn.
    + injection Hn as ->. split; reflexivity.
    + replace (2 * S k)%nat with (S (S (2 * k))) by lia. simpl.
      apply IH, Hn.
Qed.

(** ** Walls *)

Lemma rectangularWall_plain (w ht : R) (e mv lb : string) (s : Self) :
  rectangularWall w ht e [] mv lb s =
  mkOutcome s [RectangularWall w ht e [] mv lb] (inr tt).
Proof. reflexivity. Qed.

Lemma traced_holes {A} (finish : list Hole -> M Panel A) (s : Self) :
  traced [generate_finger_holes] finish s = finish (seats s) s.
Proof.
  unfold traced. simpl.
  rewrite (bind_ok _ _ s s (seats s) tt) by apply generate_finger_holes_run.
  simpl. now rewrite app_nil_r.
Qed.

Lemma rectangularWall_holes (w ht : R) (e mv lb : string) (s : Self) :
  rectangularWall w ht e [generate_finger_holes] mv lb s =
  mkOutcome s [RectangularWall w ht e (seats s) mv lb] (inr tt).
Proof. unfold rectangularWall. now rewrite traced_holes. Qed.

Lemma polygonWall_holes (b : list R) (e mv lb : string) (s : Self) :
  polygonWall b e [generate_finger_holes] mv lb s =
  mkOutcome s [PolygonWall b e (seats s) mv lb] (inr tt).
Proof. unfold polygonWall. now rewrite traced_holes. Qed.

(** ** Side panels *)

Lemma generate_rectangular_sides_run (s : Self) (width height : R) :
  generate_rectangular_sides width height s =
  mkOutcome s (rectangular_sides s width height) (inr tt).
Proof.
  unfold generate_rectangular_sides, rectangular_sides.
  rewrite (bind_ok _ _ s s [] s) by reflexivity.
  erewrite bind_ok by apply rectangularWall_holes.
  rewrite rectangularWall_holes.
  destruct (include_back s); reflexivity.
Qed.

Lemma math_sqrt_ok (a : R) : 0 <= a -> Py.math_sqrt a = inr (sqrt a).
Proof. intros Ha. unfold Py.math_sqrt. destruct (Rlt_dec a 0); [lra|easy]. Qed.

(** The hypotenuse is at least as long as the vertical cut, so the first
    square root is always defined. *)
Lemma naive_cut_nonneg (v sn : R) :
  sn <> 0 -> -1 <= sn <= 1 -> 0 <= (v / sn) ^ 2 - v ^ 2.
Proof.
  intros Hsn Hb.
  replace ((v / sn) ^ 2 - v ^ 2) with ((v / sn) ^ 2 * (1 - sn ^ 2))
    by (field; exact Hsn).
  apply Rmult_le_pos; [apply pow2_ge_0 | simpl; nra].
Qed.

Lemma generate_sloped_sides_run (s : Self) (width height : R) :
  num s <> 0%Z -> sin (radians s) <> 0 ->
  generate_sloped_sides width height s =
  mkOutcome s (sloped_sides s width height) (inr tt).
Proof.
  intros Hnum Hsin. unfold generate_sloped_sides.
  rewrite (bind_ok _ _ s s [] s) by reflexivity.
  rewrite truediv_ok by (intros E; apply eq_IZR in E; contradiction).
  rewrite (bind_ok _ _ s s [] (height / IZR (num s))) by reflexivity.
  rewrite (truediv_ok _ _ Hsin).
  rewrite (bind_ok _ _ s s [] (naive_hypotenuse s height)) by reflexivity.
  fold (naive_vertical_cut s height). fold (naive_hypotenuse s height).
  rewrite math_sqrt_ok
    by (apply naive_cut_nonneg; [exact Hsin | apply SIN_bound]).
  fold (naive_horizontal_cut s height).
  rewrite (bind_ok _ _ s s [] (naive_horizontal_cut s height)) by reflexivity.
  unfold sloped_sides, sloped_borders, horizontal_cut, vertical_cut, hypotenuse.
  destruct (Rlt_dec width (naive_horizontal_cut s height)).
  - rewrite math_sqrt_ok
      by (apply Rplus_le_le_0_compat; apply pow2_ge_0).
    destruct (include_back s); simpl;
      unfold bind; simpl; rewrite !polygonWall_holes; reflexivity.
  - destruct (include_back s); simpl;
      unfold bind; simpl; rewrite !polygonWall_holes; reflexivity.
Qed.

(** The two divisions that can stop the sloped sides. *)
Lemma generate_sloped_sides_no_tier (s : Self) (width height : R) :
  num s = 0%Z ->
  generate_sloped_sides width height s =
  mkOutcome s [] (inl Py.ZeroDivisionError).
Proof.
  intros Hnum. unfold generate_sloped_sides.
  rewrite (bind_ok _ _ s s [] s) by reflexivity.
  rewrite Hnum, truediv_zero. reflexivity.
Qed.

Lemma generate_sloped_sides_flat (s : Self) (width height : R) :
  num s <> 0%Z -> sin (radians s) = 0 ->
  generate_sloped_sides width height s =
  mkOutcome s [] (inl Py.ZeroDivisionError).
Proof.
  intros Hnum Hsin. unfold generate_sloped_sides.
  rewrite (bind_ok _ _ s s [] s) by reflexivity.
  rewrite truediv_ok by (intros E; apply eq_IZR in E; contradiction).
  rewrite (bind_ok _ _ s s [] (height / IZR (num s))) by reflexivity.
  rewrite Hsin, truediv_zero. reflexivity.
Qed.

(** ** Shelves and lips *)

Lemma generate_shelves_run (s : Self) :
  generate_shelves s = mkOutcome s (shelf_boards s) (inr tt).
Proof.
  unfold generate_shelves, shelf_boards.
  rewrite (bind_ok _ _ s s [] s) by reflexivity.
  destruct (Py.truthy (front_wall_height s)).
  - rewrite for_each_emits
      with (out := fun i => [shelf_board s "ffef" i; lip_board s i]);
      [reflexivity|]. intros i _. reflexivity.
  - rewrite for_each_emits with (out := fun i => [shelf_board s "Efef" i]);
      [reflexivity|]. intros i _. reflexivity.
Qed.

(** ** The whole layout *)

Section RenderFacts.

Variable adjustSize : Self -> R -> R.

Local Abbreviation inner_x := (inner_x adjustSize).
Local Abbreviation depth := (depth adjustSize).
Local Abbreviation slant_length := (slant_length adjustSize).
Local Abbreviation resolved := (resolved adjustSize).
Local Abbreviation side_panels := (side_panels adjustSize).
Local Abbreviation back_wall := (back_wall adjustSize).
Local Abbreviation layout := (layout adjustSize).

(** [render] up to the side panels: the slant length is computed, or its
    division raises with [radians] already assigned. *)
Lemma render_resolve (s : Self) :
  render adjustSize s =
  match Py.truediv
          (depth s
           - thickness s * (cos (Py.math_radians (angle s))
                            + Rabs (sin (Py.math_radians (angle s))))
           - Py.max 0 (sin (Py.math_radians (angle s))
                       * front_wall_height s))
          (cos (Py.math_radians (angle s))) with
  | inl e => mkOutcome (set_radians s (Py.math_radians (angle s))) [] (inl e)
  | inr v =>
      ((if slope_top s
        then generate_sloped_sides (depth s) (h s)
        else generate_rectangular_sides (depth s) (h s)) ;;
       generate_shelves ;;
       when (include_back s)
            (rectangularWall (inner_x s) (h s) "eFeF" [] "up" "back wall"))
        (set_sl (set_radians s (Py.math_radians (angle s))) v)
  end.
Proof.
  unfold render. unfold bind at 1. simpl. rewrite outcome_eta.
  fold (depth s). fold (inner_x s).
  unfold bind at 1. unfold eval at 1. simpl.
  destruct (Py.truediv _ _) as [e|v]; [reflexivity|].
  simpl. now rewrite outcome_eta.
Qed.

Lemma render_run (s : Self) :
  renders s ->
  render adjustSize s = mkOutcome (resolved s) (layout s) (inr tt).
Proof.
  intros [Hcos Hslope]. rewrite render_resolve, (truediv_ok _ _ Hcos).
  fold (slant_length s). fold (resolved s).
  unfold layout, side_panels, back_wall.
  destruct (slope_top s).
  - destruct (Hslope eq_refl) as [Hnum Hsin].
    erewrite bind_ok
      by (apply generate_sloped_sides_run; [exact Hnum | exact Hsin]).
    erewrite bind_ok by apply generate_shelves_run.
    destruct (include_back s); simpl; now rewrite ?app_nil_r.
  - erewrite bind_ok by apply generate_rectangular_sides_run.
    erewrite bind_ok by apply generate_shelves_run.
    destruct (include_back s); simpl; now rewrite ?app_nil_r.
Qed.

Lemma render_upright (s : Self) :
  cos (Py.math_radians (angle s)) = 0 ->
  render adjustSize s =
  mkOutcome (set_radians s (Py.math_radians (angle s))) []
            (inl Py.ZeroDivisionError).
Proof.
  intros Hcos. rewrite render_resolve, Hcos, truediv_zero. reflexivity.
Qed.

Lemma render_sloped_stops (s : Self) :
  cos (Py.math_radians (angle s)) <> 0 ->
  slope_top s = true ->
  num s = 0%Z \/ sin (Py.math_radians (angle s)) = 0 ->
  render adjustSize s =
  mkOutcome (resolved s) [] (inl Py.ZeroDivisionError).
Proof.
  intros Hcos Hslope Hstop. rewrite render_resolve, (truediv_ok _ _ Hcos).
  fold (slant_length s). fold (resolved s). rewrite Hslope.
  destruct (Z.eq_dec (num s) 0) as [Hnum|Hnum].
  - erewrite bind_raise by (apply generate_sloped_sides_no_tier, Hnum).
    reflexivity.
  - destruct Hstop as [Hz|Hsin]; [contradiction|].
    erewrite bind_raise
      by (apply generate_sloped_sides_flat; [exact Hnum | exact Hsin]).
    reflexivity.
Qed.

(** Every run of [render] is one of the three above. *)
Lemma render_cases (s : Self) :
  renders s \/
  cos (Py.math_radians (angle s)) = 0 \/
  (cos (Py.math_radians (angle s)) <> 0 /\ slope_top s = true /\
   (num s = 0%Z \/ sin (Py.math_radians (angle s)) = 0)).
Proof.
  unfold renders.
  destruct (Req_dec_T (cos (Py.math_radians (angle s))) 0) as [Hc|Hc];
    [now right; left|].
  destruct (slope_top s); [|left; split; [exact Hc | discriminate]].
  destruct (Z.eq_dec (num s) 0) as [Hn|Hn]; [now right; right; auto|].
  destruct (Req_dec_T (sin (Py.math_radians (angle s))) 0) as [Hs|Hs];
    [now right; right; auto|].
  left. split; [exact Hc | intros _; split; assumption].
Qed.

End RenderFacts.

(** ** Angles *)

Lemma radians_degrees (d : R) : Py.math_radians d = d * PI / 180.
Proof. unfold Py.math_radians. lra. Qed.

Lemma radians_negative (d : R) : Py.math_radians d < 0 <-> d < 0.
Proof.
  unfold Py.math_radians. pose proof PI_RGT_0 as Hpi.
  split; intros Hd; nra.
Qed.

Lemma radians_0 : Py.math_radians 0 = 0.
Proof. unfold Py.math_radians. lra. Qed.

Lemma radians_30 : Py.math_radians 30 = PI / 6.
Proof. unfold Py.math_radians. lra. Qed.

Lemma radians_minus_30 : Py.math_radians (-30) = - (PI / 6).
Proof. unfold Py.math_radians. lra. Qed.

Lemma sqrt_3_bounds : 1.7 < sqrt 3 < 1.8.
Proof.
  pose proof (sqrt_sqrt 3 ltac:(lra)) as Hsq.
  pose proof (sqrt_pos 3) as Hpos.
  split; nra.
Qed.

Lemma cos_30 : cos (Py.math_radians 30) = sqrt 3 / 2.
Proof. rewrite radians_30. apply cos_PI6. Qed.

Lemma sin_30 : sin (Py.math_radians 30) = 1 / 2.
Proof. rewrite radians_30. apply sin_PI6. Qed.

Lemma cos_minus_30 : cos (Py.math_radians (-30)) = sqrt 3 / 2.
Proof. rewrite radians_minus_30, cos_neg. apply cos_PI6. Qed.

Lemma sin_minus_30 : sin (Py.math_radians (-30)) = - (1 / 2).
Proof. rewrite radians_minus_30, sin_neg, sin_PI6. reflexivity. Qed.

Lemma renders_30 (s : Self) : angle s = 30 -> num s <> 0%Z -> renders s.
Proof.
  intros Ha Hn. unfold renders. rewrite Ha, cos_30, sin_30.
  pose proof sqrt_3_bounds. split; [lra|]. intros _. split; [exact Hn | lra].
Qed.

Lemma renders_level (s : Self) : angle s = 0 -> slope_top s = false -> renders s.
Proof.
  intros Ha Hs. unfold renders. rewrite Ha, radians_0, cos_0, Hs.
  split; [lra | discriminate].
Qed.

(** ** Which panel is which *)

Section Panels.

Variable adjustSize : Self -> R -> R.

(** Whatever [render] emits, it emits as part of a complete layout. *)
Lemma render_emitted (s : Self) (p : Panel) :
  In p (emitted (render adjustSize s)) ->
  renders s /\ render adjustSize s =
               mkOutcome (resolved adjustSize s) (layout adjustSize s) (inr tt).
Proof.
  intros Hin.
  destruct (render_cases s) as [Hr | [Hcos | [Hcos [Hslope Hstop]]]].
  - split; [exact Hr | now apply render_run].
  - rewrite (render_upright adjustSize s Hcos) in Hin. destruct Hin.
  - rewrite (render_sloped_stops adjustSize s Hcos Hslope Hstop) in Hin.
    destruct Hin.
Qed.

Lemma shelf_boards_labels (s : Self) (p : Panel) :
  In p (shelf_boards s) ->
  (exists e i, In i (Py.range (num s)) /\ p = shelf_board s e i) \/
  (exists i, In i (Py.range (num s)) /\ p = lip_board s i /\
             front_wall_height s <> 0).
Proof.
  unfold shelf_boards, Py.truthy.
  destruct (Req_dec_T (front_wall_height s) 0) as [Hz|Hnz];
    rewrite in_flat_map; intros [i [Hi Hp]]; simpl in Hp.
  - destruct Hp as [<-|[]]. left. now exists "Efef"%string, i.
  - destruct Hp as [<-|[<-|[]]].
    + left. now exists "ffef"%string, i.
    + right. now exists i.
Qed.

(** The side panels of a layout are the walls labelled left and right. *)
Lemma layout_side_panel (s : Self) (p : Panel) :
  In p (layout adjustSize s) -> is_side_panel p = true ->
  In p (side_panels adjustSize s).
Proof.
  unfold layout. rewrite !in_app_iff. intros [Hp | [Hp | Hp]] Hside.
  - exact Hp.
  - apply shelf_boards_labels in Hp.
    destruct Hp as [[e [i [_ ->]]] | [i [_ [-> _]]]]; discriminate Hside.
  - unfold back_wall in Hp. destruct (include_back s); [|destruct Hp].
    destruct Hp as [<-|[]]. discriminate Hside.
Qed.

Lemma side_panel_holes (s : Self) (p : Panel) :
  In p (side_panels adjustSize s) ->
  panel_holes p = seats (resolved adjustSize s).
Proof.
  unfold side_panels, sloped_sides, rectangular_sides.
  destruct (slope_top s); intros [<-|[<-|[]]]; reflexivity.
Qed.

Lemma side_panel_borders (s : Self) (p : Panel) :
  slope_top s = true -> In p (side_panels adjustSize s) ->
  panel_borders p =
  sloped_borders (resolved adjustSize s) (depth adjustSize s) (h s).
Proof.
  unfold side_panels, sloped_sides. intros ->.
  intros [<-|[<-|[]]]; reflexivity.
Qed.

End Panels.

(** * The claims *)

(** C1.  On every side panel that [render] emits and for every shelf index
    [i] of [0 .. num-1], request number [2i] of the panel is the shelf
    seat: it is anchored at [pos_x = |0.5 * thickness * sin(radians)|] and
    [pos_y = hs - cos(radians) * 0.5 * thickness
             + i * (h - |hs|) / (num - 0.5)],
    where [hs = (sl + thickness) * sin(radians) + cos(radians) * thickness],
    with [- sin(radians) * sl] added exactly when [angle < 0]; its length is
    the slant length [sl] and its orientation [- angle]. *)
Theorem C1_shelf_seat_anchor (adjustSize : Self -> R -> R) (s : Self)
    (p : Panel) (i : Z) :
  In p (emitted (render adjustSize s)) ->
  is_side_panel p = true ->
  (0 <= i < num s)%Z ->
  let a := angle s * PI / 180 in
  let t := thickness s in
  let slen := sl (self_after (render adjustSize s)) in
  let hs := (slen + t) * sin a + cos a * t in
  let base := hs - cos a * 0.5 * t
              + IZR i * (h s - Rabs hs) / (IZR (num s) - 0.5) in
  exists hole,
    nth_error (panel_holes p) (2 * Z.to_nat i) = Some hole /\
    pos_x hole = Rabs (0.5 * t * sin a) /\
    (angle s < 0 -> pos_y hole = base + - sin a * slen) /\
    (~ angle s < 0 -> pos_y hole = base) /\
    hole_length hole = slen /\
    hole_angle hole = - angle s.
Proof.
  intros Hin Hside Hi.
  destruct (render_emitted adjustSize s p Hin) as [_ Hrun].
  rewrite Hrun in Hin. simpl in Hin. rewrite Hrun. simpl self_after.
  apply layout_side_panel in Hin; [|exact Hside].
  rewrite (side_panel_holes adjustSize s p Hin).
  destruct (seats_nth (resolved adjustSize s) i Hi) as [Hseat _].
  intros a t slen hs base. exists (shelf_seat (resolved adjustSize s) i).
  split; [exact Hseat|].
  assert (Ha : radians (resolved adjustSize s) = a)
    by (simpl; apply radians_degrees).
  unfold shelf_seat, seat_y, seat_offset. rewrite Ha.
  change (sl (resolved adjustSize s)) with slen.
  change (thickness (resolved adjustSize s)) with t.
  change (h (resolved adjustSize s)) with (h s).
  change (num (resolved adjustSize s)) with (num s).
  change (angle (resolved adjustSize s)) with (angle s).
  fold hs. fold base. simpl.
  assert (Hneg : a < 0 <-> angle s < 0)
    by (unfold a; rewrite <- radians_degrees; apply radians_negative).
  repeat split.
  - intros Hlt. destruct (Rlt_dec a 0); [reflexivity | tauto].
  - intros Hge. destruct (Rlt_dec a 0); [tauto | reflexivity].
Qed.

Lemma default_shelf_run :
  render adjustSize_walls default_shelf =
  mkOutcome (resolved adjustSize_walls default_shelf)
            (layout adjustSize_walls default_shelf) (inr tt).
Proof.
  apply render_run, renders_30; [reflexivity | discriminate].
Qed.

Lemma default_left_side_emitted :
  In default_left_side (emitted (render adjustSize_walls default_shelf)).
Proof. rewrite default_shelf_run. left. reflexivity. Qed.

Lemma C1_shelf_seat_anchor_witness :
  In default_left_side (emitted (render adjustSize_walls default_shelf)) /\
  exists hole,
    nth_error (panel_holes default_left_side) 2 = Some hole /\
    hole_angle hole = - 30.
Proof.
  split; [exact default_left_side_emitted|].
  destruct (C1_shelf_seat_anchor adjustSize_walls default_shelf
              default_left_side 1 default_left_side_emitted eq_refl)
    as [hole [Hnth [_ [_ [_ [_ Hang]]]]]].
  - simpl. lia.
  - exists hole. split; [exact Hnth | exact Hang].
Defined.

(** C2.  Wherever the slant length is defined, that is when
    [cos(radians)] is not zero, [render] assigns
    [radians = angle * pi / 180] and
    [sl = (depth - thickness * (cos(radians) + |sin(radians)|)
           - max(0, sin(radians) * front_wall_height)) / cos(radians)],
    where [depth] is [y], adjusted from the outer measure when both
    [outside] and [include_back] are set. *)
Theorem C2_slant_length (adjustSize : Self -> R -> R) (s : Self) :
  let a := angle s * PI / 180 in
  let d := if outside s && include_back s then adjustSize s (y s) else y s in
  cos a <> 0 ->
  radians (self_after (render adjustSize s)) = a /\
  sl (self_after (render adjustSize s)) =
    (d - thickness s * (cos a + Rabs (sin a))
       - Rmax 0 (sin a * front_wall_height s)) / cos a.
Proof.
  intros a d Hcos.
  assert (Ha : Py.math_radians (angle s) = a) by apply radians_degrees.
  assert (Hafter : self_after (render adjustSize s) = resolved adjustSize s).
  { destruct (render_cases s) as [Hr | [Hz | [Hc [Hslope Hstop]]]].
    - now rewrite render_run.
    - rewrite Ha in Hz. contradiction.
    - now rewrite render_sloped_stops. }
  rewrite Hafter. simpl. split; [exact Ha|].
  unfold slant_length, depth. rewrite Ha, max_0_Rmax.
  replace (if outside s then if include_back s then adjustSize s (y s)
                             else y s else y s) with d
    by (unfold d; destruct (outside s), (include_back s); reflexivity).
  reflexivity.
Qed.

Lemma C2_slant_length_witness :
  cos (30 * PI / 180) <> 0 /\
  sl (self_after (render adjustSize_walls default_shelf)) =
    (100 - 3 * (cos (30 * PI / 180) + Rabs (sin (30 * PI / 180)))
         - Rmax 0 (sin (30 * PI / 180) * 20)) / cos (30 * PI / 180).
Proof.
  assert (Hcos : cos (30 * PI / 180) <> 0).
  { rewrite <- radians_degrees, cos_30. pose proof sqrt_3_bounds. lra. }
  split; [exact Hcos|].
  apply (C2_slant_length adjustSize_walls default_shelf Hcos).
Defined.

(** C3, as amended.  The hole-placement callback of a side panel never
    raises and issues exactly [2 * num] requests, whatever
    [front_wall_height] is: the lip seat of every tier is requested with
    length [front_wall_height], also when that is zero. *)
Theorem C3_two_requests_per_tier (s : Self) (i : Z) :
  (1 <= num s)%Z ->
  (0 <= i < num s)%Z ->
  result (generate_finger_holes s) = inr tt /\
  Z.of_nat (length (emitted (generate_finger_holes s))) = (2 * num s)%Z /\
  exists lip,
    nth_error (emitted (generate_finger_holes s)) (2 * Z.to_nat i + 1)
      = Some lip /\
    hole_length lip = front_wall_height s /\
    hole_angle lip = 90 - angle s.
Proof.
  intros Hnum Hi. rewrite generate_finger_holes_run. cbn [result emitted].
  split; [reflexivity|]. split.
  - rewrite seats_length. lia.
  - exists (lip_seat s i). destruct (seats_nth s i Hi) as [_ Hlip].
    split; [exact Hlip|]. split; reflexivity.
Qed.

Lemma C3_two_requests_per_tier_witness :
  (1 <= num lipless_shelf)%Z /\ (0 <= 2 < num lipless_shelf)%Z /\
  Z.of_nat (length (emitted (generate_finger_holes lipless_shelf))) = 6%Z.
Proof.
  assert (Hn : (1 <= num lipless_shelf)%Z)
    by (unfold lipless_shelf; simpl; lia).
  assert (Hi : (0 <= 2 < num lipless_shelf)%Z)
    by (unfold lipless_shelf; simpl; lia).
  split; [exact Hn|]. split; [exact Hi|].
  exact (proj1 (proj2 (C3_two_requests_per_tier lipless_shelf 2 Hn Hi))).
Defined.

(** C3, the claim as written fails: without front lips the callback of a
    side panel of the layout still issues [2 * num = 6] requests, not
    [num = 3], and the lip seats are among them with length zero. *)
Lemma C3_lip_seats_not_skipped :
  front_wall_height lipless_shelf = 0 /\
  exists p,
    nth_error (emitted (render adjustSize_walls lipless_shelf)) 0 = Some p /\
    is_side_panel p = true /\
    length (panel_holes p) = 6%nat /\
    length (panel_holes p) <> Z.to_nat (num lipless_shelf) /\
    option_map hole_length (nth_error (panel_holes p) 1) = Some 0.
Proof.
  split; [reflexivity|].
  rewrite (render_run adjustSize_walls lipless_shelf)
    by (apply renders_30; [reflexivity | discriminate]).
  eexists. split; [reflexivity|]. split; [reflexivity|].
  simpl panel_holes. rewrite seats_length. simpl.
  split; [reflexivity|]. split; [discriminate | reflexivity].
Qed.

(** ** The sloped silhouette *)

Lemma sloped_top_edge (s : Self) (w ht : R) (e : string) (hs : list Hole)
    (mv lb : string) :
  top_edge (PolygonWall (sloped_borders s w ht) e hs mv lb) =
  Some (w - horizontal_cut s w ht).
Proof. reflexivity. Qed.

Lemma fallback_cut (s : Self) (w ht : R) :
  w < naive_horizontal_cut s ht -> horizontal_cut s w ht = w - 1.
Proof.
  intros Hlt. unfold horizontal_cut.
  destruct (Rlt_dec w (naive_horizontal_cut s ht)); [reflexivity|contradiction].
Qed.

Lemma sqrt_above_100 (v : R) : 10000 < v -> 100 < sqrt v.
Proof.
  intros Hv. replace 100 with (sqrt (100 * 100)) by (apply sqrt_square; lra).
  apply sqrt_lt_1; lra.
Qed.

(** With three tiers of 300, lips of 20 and floors at 30 degrees the
    naive cut is the square root of 19200, about 138.6. *)
Lemma naive_cut_default (s : Self) :
  num s = 3%Z -> front_wall_height s = 20 ->
  radians s = Py.math_radians 30 ->
  100 < naive_horizontal_cut s 300.
Proof.
  intros Hn Hf Ha.
  unfold naive_horizontal_cut, naive_hypotenuse, naive_vertical_cut.
  rewrite Hn, Hf, Ha, sin_30. apply sqrt_above_100. lra.
Qed.

(** C4, as amended.  In sloped mode, when the naive horizontal cut exceeds
    the panel width, the top edge of each side panel is exactly [1]: the cut
    is clamped to [width - 1] and the top edge is the width less the cut.
    It is not negative, and it does not exceed the width of a panel at
    least one unit wide. *)
Theorem C4_fallback_top_edge (adjustSize : Self -> R -> R) (s : Self)
    (p : Panel) :
  let width := depth adjustSize s in
  let a := angle s * PI / 180 in
  let vertical_cut := h s / IZR (num s) - front_wall_height s in
  let hypotenuse := vertical_cut / sin a in
  let horizontal_cut := sqrt (hypotenuse ^ 2 - vertical_cut ^ 2) in
  slope_top s = true ->
  In p (emitted (render adjustSize s)) ->
  is_side_panel p = true ->
  width < horizontal_cut ->
  exists top,
    top_edge p = Some top /\ top = 1 /\ 0 <= top /\
    (1 <= width -> top <= width).
Proof.
  intros width a vc hyp hc Hslope Hin Hside Hlt.
  destruct (render_emitted adjustSize s p Hin) as [_ Hrun].
  rewrite Hrun in Hin. simpl in Hin.
  apply layout_side_panel in Hin; [|exact Hside].
  assert (Hnaive : naive_horizontal_cut (resolved adjustSize s) (h s) = hc).
  { unfold naive_horizontal_cut, naive_hypotenuse, naive_vertical_cut.
    simpl. rewrite radians_degrees. reflexivity. }
  assert (Hb := side_panel_borders adjustSize s p Hslope Hin).
  exists (width - horizontal_cut (resolved adjustSize s) width (h s)).
  split.
  - unfold top_edge. rewrite Hb. reflexivity.
  - rewrite fallback_cut by (rewrite Hnaive; exact Hlt).
    split; [lra|]. split; [lra|]. intros Hw. lra.
Qed.

Lemma sloped_shelf_run :
  render adjustSize_walls sloped_shelf =
  mkOutcome (resolved adjustSize_walls sloped_shelf)
            (layout adjustSize_walls sloped_shelf) (inr tt).
Proof.
  apply render_run, renders_30; [reflexivity | discriminate].
Qed.

Lemma sloped_left_side_emitted :
  In sloped_left_side (emitted (render adjustSize_walls sloped_shelf)).
Proof. rewrite sloped_shelf_run. left. reflexivity. Qed.

Lemma sloped_shelf_falls_back :
  depth adjustSize_walls sloped_shelf
  < sqrt (((h sloped_shelf / IZR (num sloped_shelf)
            - front_wall_height sloped_shelf)
           / sin (angle sloped_shelf * PI / 180)) ^ 2
          - (h sloped_shelf / IZR (num sloped_shelf)
             - front_wall_height sloped_shelf) ^ 2).
Proof.
  rewrite <- radians_degrees.
  change (depth adjustSize_walls sloped_shelf) with 100.
  exact (naive_cut_default (resolved adjustSize_walls sloped_shelf)
           eq_refl eq_refl eq_refl).
Qed.

Lemma C4_fallback_top_edge_witness :
  In sloped_left_side (emitted (render adjustSize_walls sloped_shelf)) /\
  top_edge sloped_left_side = Some 1.
Proof.
  split; [exact sloped_left_side_emitted|].
  destruct (C4_fallback_top_edge adjustSize_walls sloped_shelf
              sloped_left_side eq_refl sloped_left_side_emitted eq_refl
              sloped_shelf_falls_back)
    as [top [Htop [Hone _]]].
  rewrite Htop, Hone. reflexivity.
Defined.

(** C4, the claim as written fails.  On the default shelf with sloped
    sides the panel is 100 wide and the naive cut exceeds it; the top edge
    is then [1], not [width - 1 = 99].  On a panel half a unit wide the
    top edge is again [1], more than the width. *)
Lemma C4_top_edge_is_not_width_less_one :
  (exists p,
     nth_error (emitted (render adjustSize_walls sloped_shelf)) 0 = Some p /\
     depth adjustSize_walls sloped_shelf = 100 /\
     100 < naive_horizontal_cut (resolved adjustSize_walls sloped_shelf) 300 /\
     top_edge p = Some 1 /\
     top_edge p <> Some (100 - 1)) /\
  (exists p top,
     nth_error (emitted (render adjustSize_walls shallow_sloped_shelf)) 0
       = Some p /\
     depth adjustSize_walls shallow_sloped_shelf = 0.5 /\
     0.5 < naive_horizontal_cut
             (resolved adjustSize_walls shallow_sloped_shelf) 300 /\
     top_edge p = Some top /\
     depth adjustSize_walls shallow_sloped_shelf < top).
Proof.
  split.
  - assert (Hcut : 100 < naive_horizontal_cut
                           (resolved adjustSize_walls sloped_shelf) 300)
      by (apply naive_cut_default; reflexivity).
    assert (Htop : 100 - horizontal_cut
                           (resolved adjustSize_walls sloped_shelf) 100 300
                   = 1)
      by (rewrite (fallback_cut _ _ _ Hcut); lra).
    exists sloped_left_side. rewrite sloped_shelf_run.
    split; [reflexivity|]. split; [reflexivity|]. split; [exact Hcut|].
    unfold sloped_left_side. rewrite sloped_top_edge, Htop.
    split; [reflexivity|]. intros E. injection E as E. lra.
  - assert (Hcut : 0.5 < naive_horizontal_cut
                           (resolved adjustSize_walls shallow_sloped_shelf)
                           300).
    { apply Rlt_trans with 100; [lra|].
      apply naive_cut_default; reflexivity. }
    rewrite (render_run adjustSize_walls shallow_sloped_shelf)
      by (apply renders_30; [reflexivity | discriminate]).
    exists (PolygonWall
              (sloped_borders (resolved adjustSize_walls shallow_sloped_shelf)
                              0.5 300)
              "e" (seats (resolved adjustSize_walls shallow_sloped_shelf))
              "up" "left side"), 1.
    split; [reflexivity|]. split; [reflexivity|]. split; [exact Hcut|].
    rewrite sloped_top_edge, (fallback_cut _ _ _ Hcut).
    split; [f_equal; lra|].
    change (depth adjustSize_walls shallow_sloped_shelf) with 0.5. lra.
Qed.

(** ** Failures *)

Lemma shelf_boards_length (s : Self) :
  length (shelf_boards s) =
  ((if Req_dec_T (front_wall_height s) 0 then 1 else 2)
   * Z.to_nat (num s))%nat.
Proof.
  unfold shelf_boards, Py.truthy. rewrite <- (range_length (num s)).
  destruct (Req_dec_T (front_wall_height s) 0);
    induction (Py.range (num s)) as [|i l IH];
    cbn [flat_map length app] in *; lia.
Qed.

(** C5, as amended.  The generator validates nothing and has no error of
    its own.  Where [cos(radians)] is not zero: with rectangular sides
    [render] raises nothing, whatever [num] and the slant length are, and
    emits the two sides, one or two boards for each of the [num] tiers, none
    when [num < 1], and the back wall if there is one; with sloped sides
    and [num = 0] it raises the numeric [ZeroDivisionError], before any
    panel is emitted. *)
Theorem C5_nothing_is_validated (adjustSize : Self -> R -> R) (s : Self) :
  cos (angle s * PI / 180) <> 0 ->
  (slope_top s = false ->
   result (render adjustSize s) = inr tt /\
   length (emitted (render adjustSize s)) =
   (2 + (if Req_dec_T (front_wall_height s) 0 then 1 else 2)
        * Z.to_nat (num s)
    + (if include_back s then 1 else 0))%nat) /\
  (slope_top s = true -> num s = 0%Z ->
   result (render adjustSize s) = inl Py.ZeroDivisionError /\
   emitted (render adjustSize s) = []).
Proof.
  rewrite <- radians_degrees. intros Hcos. split.
  - intros Hrect.
    assert (Hr : renders s)
      by (split; [exact Hcos | rewrite Hrect; discriminate]).
    rewrite render_run by exact Hr. cbn [result emitted].
    split; [reflexivity|].
    unfold layout, side_panels, back_wall. rewrite Hrect.
    rewrite !length_app, shelf_boards_length.
    change (front_wall_height (resolved adjustSize s))
      with (front_wall_height s).
    change (num (resolved adjustSize s)) with (num s).
    destruct (include_back s); cbn [length rectangular_sides]; lia.
  - intros Hslope Hnum.
    rewrite (render_sloped_stops adjustSize s Hcos Hslope (or_introl Hnum)).
    split; reflexivity.
Qed.

Lemma C5_nothing_is_validated_witness :
  cos (angle empty_shelf * PI / 180) <> 0 /\
  result (render adjustSize_walls empty_shelf) = inr tt /\
  length (emitted (render adjustSize_walls empty_shelf)) = 2%nat.
Proof.
  assert (Hcos : cos (angle empty_shelf * PI / 180) <> 0).
  { rewrite <- radians_degrees. change (angle empty_shelf) with 0.
    rewrite radians_0, cos_0. lra. }
  destruct (proj1 (C5_nothing_is_validated adjustSize_walls empty_shelf Hcos)
              eq_refl) as [Hok Hlen].
  split; [exact Hcos|]. split; [exact Hok|].
  rewrite Hlen. unfold empty_shelf. cbn [front_wall_height num include_back].
  destruct (Req_dec_T 20 0); reflexivity.
Defined.

Lemma level_slant_length (s : Self) :
  angle s = 0 ->
  slant_length adjustSize_walls s = depth adjustSize_walls s - thickness s.
Proof.
  intros Ha. unfold slant_length.
  rewrite Ha, radians_0, cos_0, sin_0, Rabs_R0, Rmult_0_l.
  unfold Py.max. destruct (Rlt_dec 0 0); lra.
Qed.

(** C5, the claim as written fails.  With no shelves at all, and with a
    slant length below zero, [render] raises nothing and emits the side
    panels; with no shelves and sloped sides what it raises is the numeric
    [ZeroDivisionError]. *)
Lemma C5_invalid_configurations_accepted :
  ((num empty_shelf < 1)%Z /\
   result (render adjustSize_walls empty_shelf) = inr tt /\
   length (emitted (render adjustSize_walls empty_shelf)) = 2%nat) /\
  (sl (self_after (render adjustSize_walls cramped_shelf)) <= 0 /\
   result (render adjustSize_walls cramped_shelf) = inr tt /\
   emitted (render adjustSize_walls cramped_shelf) <> []) /\
  ((num empty_sloped_shelf < 1)%Z /\
   result (render adjustSize_walls empty_sloped_shelf)
   = inl Py.ZeroDivisionError).
Proof.
  split; [|split].
  - rewrite (render_run adjustSize_walls empty_shelf)
      by (apply renders_level; reflexivity).
    split; [unfold empty_shelf; simpl; lia|]. split; [reflexivity|].
    simpl. unfold layout, shelf_boards. rewrite !length_app.
    destruct (Py.truthy _); reflexivity.
  - rewrite (render_run adjustSize_walls cramped_shelf)
      by (apply renders_level; reflexivity).
    simpl. split; [|split; [reflexivity | discriminate]].
    rewrite level_slant_length by reflexivity.
    unfold depth, cramped_shelf. simpl. lra.
  - split; [unfold empty_sloped_shelf; simpl; lia|].
    rewrite (render_sloped_stops adjustSize_walls empty_sloped_shelf).
    + reflexivity.
    + change (angle empty_sloped_shelf) with 30. rewrite cos_30.
      pose proof sqrt_3_bounds. lra.
    + reflexivity.
    + left. reflexivity.
Qed.

(** C10.  With sloped sides and level floors, [render] computes the slant
    length, since [cos(radians)] is one, and then fails on a division by
    zero in the sloped sides, before any panel is emitted; unless [num] is
    zero, the division that fails is that of the vertical cut by
    [sin(radians) = 0]. *)
Theorem C10_level_sloped_sides_divide_by_zero
    (adjustSize : Self -> R -> R) (s : Self) :
  slope_top s = true -> angle s = 0 ->
  let s' := self_after (render adjustSize s) in
  cos (radians s') = 1 /\
  sin (radians s') = 0 /\
  result (render adjustSize s) = inl Py.ZeroDivisionError /\
  emitted (render adjustSize s) = [] /\
  result (generate_sloped_sides (depth adjustSize s) (h s) s')
  = inl Py.ZeroDivisionError /\
  (num s <> 0%Z ->
   Py.truediv (h s) (IZR (num s)) = inr (h s / IZR (num s)) /\
   Py.truediv (h s / IZR (num s) - front_wall_height s) (sin (radians s'))
   = inl Py.ZeroDivisionError).
Proof.
  intros Hslope Ha.
  assert (Hrad : Py.math_radians (angle s) = 0) by (rewrite Ha; apply radians_0).
  assert (Hcos : cos (Py.math_radians (angle s)) <> 0)
    by (rewrite Hrad, cos_0; lra).
  assert (Hsin : sin (Py.math_radians (angle s)) = 0)
    by (rewrite Hrad; apply sin_0).
  rewrite (render_sloped_stops adjustSize s Hcos Hslope (or_intror Hsin)).
  cbn [self_after result emitted].
  change (radians (resolved adjustSize s)) with (Py.math_radians (angle s)).
  rewrite Hrad, cos_0, sin_0.
  split; [reflexivity|]. split; [reflexivity|]. split; [reflexivity|].
  split; [reflexivity|]. split.
  - destruct (Z.eq_dec (num s) 0) as [Hn|Hn].
    + now rewrite generate_sloped_sides_no_tier.
    + now rewrite generate_sloped_sides_flat.
  - intros Hn. split; [|apply truediv_zero].
    apply truediv_ok. intros E. apply eq_IZR in E. contradiction.
Qed.

Lemma C10_level_sloped_sides_divide_by_zero_witness :
  slope_top level_sloped_shelf = true /\ angle level_sloped_shelf = 0 /\
  result (render adjustSize_walls level_sloped_shelf)
  = inl Py.ZeroDivisionError.
Proof.
  split; [reflexivity|]. split; [reflexivity|].
  exact (proj1 (proj2 (proj2
    (C10_level_sloped_sides_divide_by_zero adjustSize_walls
       level_sloped_shelf eq_refl eq_refl)))).
Defined.

(** ** Counting the boards *)

Lemma prefix_empty (t : string) : String.prefix "" t = true.
Proof. destruct t; reflexivity. Qed.

Lemma shelf_board_kind (s : Self) (e : string) (i : Z) :
  is_shelf_board (shelf_board s e i) = true /\
  is_lip_board (shelf_board s e i) = false.
Proof.
  unfold is_shelf_board, is_lip_board. simpl.
  now rewrite prefix_empty.
Qed.

Lemma lip_board_kind (s : Self) (i : Z) :
  is_shelf_board (lip_board s i) = false /\
  is_lip_board (lip_board s i) = true.
Proof.
  unfold is_shelf_board, is_lip_board. simpl.
  now rewrite prefix_empty.
Qed.

Lemma boards_with_lips (s : Self) (l : list Z) :
  let boards := flat_map (fun i => [shelf_board s "ffef" i; lip_board s i]) l in
  filter is_shelf_board boards = map (shelf_board s "ffef") l /\
  filter is_lip_board boards = map (lip_board s) l.
Proof.
  induction l as [|i l [IHs IHl]]; [now split|].
  cbn [flat_map app filter map].
  destruct (shelf_board_kind s "ffef" i) as [-> ->].
  destruct (lip_board_kind s i) as [-> ->].
  cbv zeta in IHs, IHl. rewrite IHs, IHl. now split.
Qed.

Lemma boards_without_lips (s : Self) (l : list Z) :
  let boards := flat_map (fun i => [shelf_board s "Efef" i]) l in
  filter is_shelf_board boards = map (shelf_board s "Efef") l /\
  filter is_lip_board boards = [].
Proof.
  induction l as [|i l [IHs IHl]]; [now split|].
  cbn [flat_map app filter map].
  destruct (shelf_board_kind s "Efef" i) as [-> ->].
  cbv zeta in IHs, IHl. rewrite IHs, IHl. now split.
Qed.

Lemma sides_are_not_boards (adjustSize : Self -> R -> R) (s : Self) :
  filter is_shelf_board (side_panels adjustSize s) = [] /\
  filter is_lip_board (side_panels adjustSize s) = [] /\
  filter is_shelf_board (back_wall adjustSize s) = [] /\
  filter is_lip_board (back_wall adjustSize s) = [].
Proof.
  unfold side_panels, back_wall, sloped_sides, rectangular_sides.
  destruct (slope_top s), (include_back s); repeat split; reflexivity.
Qed.

Lemma layout_shelf_boards (adjustSize : Self -> R -> R) (s : Self) :
  length (filter is_shelf_board (layout adjustSize s)) = Z.to_nat (num s).
Proof.
  destruct (sides_are_not_boards adjustSize s) as [Hs [_ [Hb _]]].
  unfold layout. rewrite !filter_app, Hs, Hb, app_nil_r. simpl.
  unfold shelf_boards. destruct (Py.truthy _).
  - rewrite (proj1 (boards_with_lips _ _)), length_map. apply range_length.
  - rewrite (proj1 (boards_without_lips _ _)), length_map. apply range_length.
Qed.

Lemma layout_lip_boards (adjustSize : Self -> R -> R) (s : Self) :
  length (filter is_lip_board (layout adjustSize s)) =
  if Py.truthy (front_wall_height s) then Z.to_nat (num s) else 0%nat.
Proof.
  destruct (sides_are_not_boards adjustSize s) as [_ [Hs [_ Hb]]].
  unfold layout. rewrite !filter_app, Hs, Hb, app_nil_r. simpl.
  unfold shelf_boards.
  change (front_wall_height (resolved adjustSize s))
    with (front_wall_height s).
  destruct (Py.truthy _).
  - rewrite (proj2 (boards_with_lips _ _)), length_map. apply range_length.
  - now rewrite (proj2 (boards_without_lips _ _)).
Qed.

(** The boards of a layout are cut to the attribute [x], as it was given. *)
Lemma layout_board_sizes (adjustSize : Self -> R -> R) (s : Self) (p : Panel) :
  In p (layout adjustSize s) ->
  (is_shelf_board p = true ->
   panel_size p = Some (x s, slant_length adjustSize s)) /\
  (is_lip_board p = true ->
   panel_size p = Some (x s, front_wall_height s)).
Proof.
  unfold layout. rewrite !in_app_iff. intros [Hp | [Hp | Hp]].
  - unfold side_panels, sloped_sides, rectangular_sides in Hp.
    destruct (slope_top s); destruct Hp as [<-|[<-|[]]];
      split; discriminate.
  - apply shelf_boards_labels in Hp.
    destruct Hp as [[e [i [_ ->]]] | [i [_ [-> _]]]];
      split; try discriminate; reflexivity.
  - unfold back_wall in Hp. destruct (include_back s); [|destruct Hp].
    destruct Hp as [<-|[]]. split; discriminate.
Qed.

(** C8.  When every division of [render] is defined, [num] is at least one
    and [front_wall_height] is not negative, [render] raises nothing and
    emits exactly [num] shelf boards, each [x] by the slant length, and
    exactly [num] front-lip boards, each [x] by [front_wall_height], when
    [front_wall_height > 0], and none otherwise. *)
Theorem C8_shelves_and_lips (adjustSize : Self -> R -> R) (s : Self) :
  renders s -> (1 <= num s)%Z -> 0 <= front_wall_height s ->
  let out := emitted (render adjustSize s) in
  let slen := sl (self_after (render adjustSize s)) in
  result (render adjustSize s) = inr tt /\
  Z.of_nat (length (filter is_shelf_board out)) = num s /\
  (forall p, In p out -> is_shelf_board p = true ->
             panel_size p = Some (x s, slen)) /\
  Z.of_nat (length (filter is_lip_board out)) =
    (if Rlt_dec 0 (front_wall_height s) then num s else 0%Z) /\
  (forall p, In p out -> is_lip_board p = true ->
             panel_size p = Some (x s, front_wall_height s)).
Proof.
  intros Hr Hnum Hfront. rewrite (render_run adjustSize s Hr).
  cbn [emitted self_after result].
  change (sl (resolved adjustSize s)) with (slant_length adjustSize s).
  split; [reflexivity|]. split; [|split; [|split]].
  - rewrite layout_shelf_boards. lia.
  - intros p Hin. apply (layout_board_sizes adjustSize s p Hin).
  - rewrite layout_lip_boards. unfold Py.truthy.
    destruct (Req_dec_T (front_wall_height s) 0),
             (Rlt_dec 0 (front_wall_height s)); try lia; lra.
  - intros p Hin. apply (layout_board_sizes adjustSize s p Hin).
Qed.

Lemma C8_shelves_and_lips_witness :
  renders default_shelf /\ (1 <= num default_shelf)%Z /\
  0 <= front_wall_height default_shelf /\
  Z.of_nat (length (filter is_shelf_board
                      (emitted (render adjustSize_walls default_shelf))))
  = 3%Z.
Proof.
  assert (Hr : renders default_shelf)
    by (apply renders_30; [reflexivity | discriminate]).
  assert (Hn : (1 <= num default_shelf)%Z)
    by (unfold default_shelf; simpl; lia).
  assert (Hf : 0 <= front_wall_height default_shelf)
    by (unfold default_shelf; simpl; lra).
  split; [exact Hr|]. split; [exact Hn|]. split; [exact Hf|].
  exact (proj1 (proj2
    (C8_shelves_and_lips adjustSize_walls default_shelf Hr Hn Hf))).
Defined.

(** C9, the code at an input where it departs from the claim.  With outer
    dimensions 400 x 100 x 300, material 3 thick and a back wall, the
    adjusted width is 394 and the adjusted depth 94.  The back wall is 394
    wide and the side panels 94 deep, as claimed; the shelf and lip boards
    are 400 wide, the outer width. *)
Theorem C9_boards_keep_outer_width :
  let out := emitted (render adjustSize_walls backed_shelf) in
  outside backed_shelf = true /\
  adjustSize_walls backed_shelf (x backed_shelf) = 394 /\
  adjustSize_walls backed_shelf (y backed_shelf) = 94 /\
  result (render adjustSize_walls backed_shelf) = inr tt /\
  length (filter is_shelf_board out) = 3%nat /\
  (forall p, In p out -> is_shelf_board p = true ->
             option_map fst (panel_size p) = Some 400) /\
  (forall p, In p out -> is_lip_board p = true ->
             option_map fst (panel_size p) = Some 400) /\
  (forall p, In p out -> panel_label p = "back wall"%string ->
             exists w, panel_size p = Some (w, 300) /\ w = 394) /\
  (forall p, In p out -> is_side_panel p = true ->
             exists d, panel_size p = Some (d, 300) /\ d = 94).
Proof.
  assert (Hr : renders backed_shelf)
    by (apply renders_30; [reflexivity | discriminate]).
  rewrite (render_run adjustSize_walls backed_shelf Hr).
  cbn [emitted result].
  assert (Hx : adjustSize_walls backed_shelf (x backed_shelf) = 394)
    by (unfold adjustSize_walls, backed_shelf; simpl; lra).
  assert (Hy : adjustSize_walls backed_shelf (y backed_shelf) = 94)
    by (unfold adjustSize_walls, backed_shelf; simpl; lra).
  split; [reflexivity|]. split; [exact Hx|]. split; [exact Hy|].
  split; [reflexivity|]. split; [apply layout_shelf_boards|].
  split; [|split; [|split]].
  - intros p Hin Hb.
    now rewrite (proj1 (layout_board_sizes _ _ p Hin) Hb).
  - intros p Hin Hb.
    now rewrite (proj2 (layout_board_sizes _ _ p Hin) Hb).
  - intros p Hin Hl. unfold layout in Hin. rewrite !in_app_iff in Hin.
    destruct Hin as [Hp | [Hp | Hp]].
    + destruct Hp as [<-|[<-|[]]]; discriminate Hl.
    + apply shelf_boards_labels in Hp.
      destruct Hp as [[e [i [_ ->]]] | [i [_ [-> _]]]]; discriminate Hl.
    + destruct Hp as [<-|[]]. eexists. split; [reflexivity | exact Hx].
  - intros p Hin Hside. apply layout_side_panel in Hin; [|exact Hside].
    destruct Hin as [<-|[<-|[]]]; eexists; (split; [reflexivity | exact Hy]).
Qed.

(** ** The boundary of a sloped side *)




(** ** Leaning forwards and backwards *)

Lemma layout_first_seat (adjustSize : Self -> R -> R) (s : Self) (i : Z) :
  (0 <= i < num s)%Z ->
  first_panel_seat_y (layout adjustSize s) i =
  Some (seat_y (resolved adjustSize s) i).
Proof.
  intros Hi.
  destruct (seats_nth (resolved adjustSize s) i Hi) as [Hseat _].
  unfold layout, side_panels, sloped_sides, rectangular_sides.
  destruct (slope_top s); cbn [app first_panel_seat_y panel_holes];
    rewrite Hseat; reflexivity.
Qed.

Lemma backward_shelf_run :
  render adjustSize_walls backward_shelf =
  mkOutcome (resolved adjustSize_walls backward_shelf)
            (layout adjustSize_walls backward_shelf) (inr tt).
Proof.
  apply render_run. unfold renders.
  change (angle backward_shelf) with (-30).
  rewrite cos_minus_30. pose proof sqrt_3_bounds.
  split; [lra | discriminate].
Qed.

(** The slant lengths of the two shelves: the lip takes 10 off the depth
    only when the floors lean forwards. *)
Lemma default_slant_length :
  slant_length adjustSize_walls default_shelf =
  (100 - 3 * (sqrt 3 / 2 + 1 / 2) - 10) / (sqrt 3 / 2).
Proof.
  unfold slant_length, depth.
  change (angle default_shelf) with 30. rewrite cos_30, sin_30.
  rewrite (Rabs_right (1 / 2)) by lra.
  replace (Py.max 0 (1 / 2 * front_wall_height default_shelf)) with 10
    by (unfold Py.max, default_shelf; simpl;
        destruct (Rlt_dec 0 (1 / 2 * 20)); lra).
  reflexivity.
Qed.

Lemma backward_slant_length :
  slant_length adjustSize_walls backward_shelf =
  (100 - 3 * (sqrt 3 / 2 + 1 / 2) - 0) / (sqrt 3 / 2).
Proof.
  unfold slant_length, depth.
  change (angle backward_shelf) with (-30).
  rewrite cos_minus_30, sin_minus_30.
  rewrite Rabs_Ropp, (Rabs_right (1 / 2)) by lra.
  replace (Py.max 0 (- (1 / 2) * front_wall_height backward_shelf)) with 0
    by (unfold Py.max, backward_shelf; simpl;
        destruct (Rlt_dec 0 (- (1 / 2) * 20)); lra).
  reflexivity.
Qed.

Lemma slant_lengths_positive :
  0 < slant_length adjustSize_walls default_shelf /\
  0 < slant_length adjustSize_walls backward_shelf.
Proof.
  rewrite default_slant_length, backward_slant_length.
  pose proof sqrt_3_bounds.
  split; apply Rdiv_lt_0_compat; lra.
Qed.

(** Seat heights of the two shelves, tier by tier. *)
Lemma default_seat_y (i : Z) :
  seat_y (resolved adjustSize_walls default_shelf) i =
  let slen := slant_length adjustSize_walls default_shelf in
  let hs := (slen + 3) * (1 / 2) + sqrt 3 / 2 * 3 in
  hs - sqrt 3 / 2 * 0.5 * 3 + IZR i * (300 - Rabs hs) / (3 - 0.5).
Proof.
  unfold seat_y, seat_offset.
  change (radians (resolved adjustSize_walls default_shelf))
    with (Py.math_radians 30).
  rewrite cos_30, sin_30.
  destruct (Rlt_dec (Py.math_radians 30) 0) as [Hneg|_]; [|reflexivity].
  exfalso. apply (proj1 (radians_negative 30)) in Hneg. lra.
Qed.

Lemma backward_seat_y (i : Z) :
  seat_y (resolved adjustSize_walls backward_shelf) i =
  let slen := slant_length adjustSize_walls backward_shelf in
  let hs := (slen + 3) * - (1 / 2) + sqrt 3 / 2 * 3 in
  hs - sqrt 3 / 2 * 0.5 * 3 + IZR i * (300 - Rabs hs) / (3 - 0.5)
  + - - (1 / 2) * slen.
Proof.
  unfold seat_y, seat_offset.
  change (radians (resolved adjustSize_walls backward_shelf))
    with (Py.math_radians (-30)).
  rewrite cos_minus_30, sin_minus_30.
  destruct (Rlt_dec (Py.math_radians (-30)) 0) as [_|Hpos];
    [reflexivity|].
  exfalso. apply Hpos, (proj2 (radians_negative (-30))). lra.
Qed.

(** C7, as amended.  For the default shelf ([x = 400], [y = 100],
    [h = 300], [num = 3], lips of 20, no back, rectangular sides, material
    3 thick) and every shelf index [i], the seat height with the floors at
    [-30] is the seat height with the floors at [30] less
    [sin(30) * (sl + 2 * thickness)], where [sl] is the slant length at
    [30], plus [i * (|hs| - |hs'|) / (num - 0.5)], where [hs] and [hs']
    are the offsets of the first seat at [30] and at [-30]. *)
Theorem C7_backward_seat_heights (i : Z) :
  (0 <= i < 3)%Z ->
  let forwards := render adjustSize_walls default_shelf in
  let backwards := render adjustSize_walls backward_shelf in
  let slen := sl (self_after forwards) in
  let hs := seat_offset (self_after forwards) in
  let hs' := seat_offset (self_after backwards) in
  exists y_forwards y_backwards,
    first_panel_seat_y (emitted forwards) i = Some y_forwards /\
    first_panel_seat_y (emitted backwards) i = Some y_backwards /\
    y_backwards =
      y_forwards - sin (30 * PI / 180) * (slen + 2 * 3)
      + IZR i * (Rabs hs - Rabs hs') / (3 - 0.5).
Proof.
  intros Hi. rewrite default_shelf_run, backward_shelf_run.
  cbn [emitted self_after].
  exists (seat_y (resolved adjustSize_walls default_shelf) i),
         (seat_y (resolved adjustSize_walls backward_shelf) i).
  split; [apply layout_first_seat; exact Hi|].
  split; [apply layout_first_seat; exact Hi|].
  rewrite default_seat_y, backward_seat_y.
  rewrite <- radians_degrees, sin_30.
  unfold seat_offset.
  change (radians (resolved adjustSize_walls default_shelf))
    with (Py.math_radians 30).
  change (radians (resolved adjustSize_walls backward_shelf))
    with (Py.math_radians (-30)).
  rewrite cos_30, sin_30, cos_minus_30, sin_minus_30.
  change (sl (resolved adjustSize_walls default_shelf))
    with (slant_length adjustSize_walls default_shelf).
  change (sl (resolved adjustSize_walls backward_shelf))
    with (slant_length adjustSize_walls backward_shelf).
  change (thickness (resolved adjustSize_walls default_shelf)) with 3.
  change (thickness (resolved adjustSize_walls backward_shelf)) with 3.
  cbv zeta.
  generalize (slant_length adjustSize_walls default_shelf) as u.
  generalize (slant_length adjustSize_walls backward_shelf) as v.
  intros v u.
  generalize (Rabs ((u + 3) * (1 / 2) + sqrt 3 / 2 * 3)) as p.
  generalize (Rabs ((v + 3) * - (1 / 2) + sqrt 3 / 2 * 3)) as q.
  intros q p. field. lra.
Qed.

Lemma C7_backward_seat_heights_witness :
  (0 <= 2 < 3)%Z /\
  exists y_forwards y_backwards,
    first_panel_seat_y (emitted (render adjustSize_walls default_shelf)) 2
    = Some y_forwards /\
    first_panel_seat_y (emitted (render adjustSize_walls backward_shelf)) 2
    = Some y_backwards.
Proof.
  assert (Hi : (0 <= 2 < 3)%Z) by lia.
  split; [exact Hi|].
  destruct (C7_backward_seat_heights 2 Hi) as [yf [yb [Hf [Hb _]]]].
  exists yf, yb. split; [exact Hf | exact Hb].
Defined.

(** C7, the claim as written fails.  At index 0 the seat with the floors
    at [-30] lies below the panel's lower edge and the seat with the floors
    at [30] above it, so it is not the latter plus
    [sin(30) * slant_length], whichever of the two slant lengths is
    meant. *)
Lemma C7_backward_seat_is_lower :
  exists y_forwards y_backwards,
    first_panel_seat_y (emitted (render adjustSize_walls default_shelf)) 0
    = Some y_forwards /\
    first_panel_seat_y (emitted (render adjustSize_walls backward_shelf)) 0
    = Some y_backwards /\
    y_backwards < 0 < y_forwards /\
    y_backwards <>
      y_forwards + sin (30 * PI / 180)
                   * sl (self_after (render adjustSize_walls default_shelf)) /\
    y_backwards <>
      y_forwards + sin (30 * PI / 180)
                   * sl (self_after (render adjustSize_walls backward_shelf)).
Proof.
  rewrite default_shelf_run, backward_shelf_run. cbn [emitted self_after].
  exists (seat_y (resolved adjustSize_walls default_shelf) 0),
         (seat_y (resolved adjustSize_walls backward_shelf) 0).
  split; [apply layout_first_seat; unfold default_shelf; simpl; lia|].
  split; [apply layout_first_seat; unfold backward_shelf; simpl; lia|].
  rewrite default_seat_y, backward_seat_y.
  rewrite <- radians_degrees, sin_30.
  change (sl (resolved adjustSize_walls default_shelf))
    with (slant_length adjustSize_walls default_shelf).
  change (sl (resolved adjustSize_walls backward_shelf))
    with (slant_length adjustSize_walls backward_shelf).
  destruct slant_lengths_positive as [Hu Hv]. revert Hu Hv.
  cbv zeta.
  generalize (slant_length adjustSize_walls default_shelf) as u.
  generalize (slant_length adjustSize_walls backward_shelf) as v.
  intros v u Hu Hv. pose proof sqrt_3_bounds as Hsqrt.
  replace (0 * (300 - Rabs ((u + 3) * (1 / 2) + sqrt 3 / 2 * 3)) / (3 - 0.5))
    with 0 by (unfold Rdiv; ring).
  replace (0 * (300 - Rabs ((v + 3) * - (1 / 2) + sqrt 3 / 2 * 3)) / (3 - 0.5))
    with 0 by (unfold Rdiv; ring).
  repeat split; try lra.
Qed.

(** * Further properties of the generator *)

(** ** Rectangular sides *)

(** X1.  With rectangular sides, whatever the angle (short of a right
    angle), [render] first emits the left and the right side as two equal
    plain rectangles, as deep as the shelf and [h] high, with the same
    [2 * num] joint holes; their edges are plain, except the last when there
    is a back wall.  No later panel is a side. *)
Theorem X1_rectangular_sides (adjustSize : Self -> R -> R) (s : Self) :
  slope_top s = false ->
  cos (Py.math_radians (angle s)) <> 0 ->
  exists holes rest,
    emitted (render adjustSize s) =
      RectangularWall (depth adjustSize s) (h s)
        (if include_back s then "eeef" else "eeee")%string
        holes "up" "left side"
      :: RectangularWall (depth adjustSize s) (h s)
           (if include_back s then "eeef" else "eeee")%string
           holes "up" "right side"
      :: rest /\
    length holes = (2 * Z.to_nat (num s))%nat /\
    Forall (fun p => is_side_panel p = false) rest.
Proof.
  intros Hrect Hcos.
  assert (Hr : renders s)
    by (split; [exact Hcos | rewrite Hrect; discriminate]).
  rewrite (render_run adjustSize s Hr). cbn [emitted].
  exists (seats (resolved adjustSize s)),
         (shelf_boards (resolved adjustSize s) ++ back_wall adjustSize s).
  split; [|split].
  - unfold layout, side_panels, rectangular_sides. rewrite Hrect.
    change (include_back (resolved adjustSize s)) with (include_back s).
    reflexivity.
  - exact (seats_length (resolved adjustSize s)).
  - apply Forall_forall. intros p Hp. apply in_app_iff in Hp.
    destruct Hp as [Hp|Hp].
    + apply shelf_boards_labels in Hp.
      destruct Hp as [[e [i [_ ->]]] | [i [_ [-> _]]]]; reflexivity.
    + unfold back_wall in Hp. destruct (include_back s); [|destruct Hp].
      destruct Hp as [<-|[]]. reflexivity.
Qed.

Lemma X1_rectangular_sides_witness :
  slope_top default_shelf = false /\
  cos (Py.math_radians (angle default_shelf)) <> 0 /\
  exists holes rest,
    emitted (render adjustSize_walls default_shelf) =
      RectangularWall 100 300 "eeee" holes "up" "left side"
      :: RectangularWall 100 300 "eeee" holes "up" "right side" :: rest /\
    length holes = 6%nat.
Proof.
  assert (Hcos : cos (Py.math_radians (angle default_shelf)) <> 0).
  { change (angle default_shelf) with 30. rewrite cos_30.
    pose proof sqrt_3_bounds. lra. }
  split; [reflexivity|]. split; [exact Hcos|].
  destruct (X1_rectangular_sides adjustSize_walls default_shelf
              eq_refl Hcos) as [holes [rest [Hout [Hlen _]]]].
  exists holes, rest. split; [exact Hout | exact Hlen].
Defined.

(** ** The order of the layout *)

Lemma shelf_boards_tier_labels (s : Self) :
  map panel_label (shelf_boards s) =
  flat_map (tier_labels s) (Py.range (num s)).
Proof.
  unfold shelf_boards, tier_labels, Py.truthy.
  destruct (Req_dec_T (front_wall_height s) 0);
    induction (Py.range (num s)) as [|i l IH]; simpl;
    try reflexivity; now rewrite IH.
Qed.

Lemma tier_labels_length (s : Self) (l : list Z) :
  length (flat_map (tier_labels s) l) =
  ((if Req_dec_T (front_wall_height s) 0 then 1 else 2) * length l)%nat.
Proof.
  unfold tier_labels.
  destruct (Req_dec_T (front_wall_height s) 0);
    induction l as [|i l IH]; cbn [flat_map length app] in *; lia.
Qed.

(** X2.  When every division of [render] is defined, the panels come in a
    fixed order: left side, right side, then tier by tier the shelf
    followed by its front lip, numbered from 1, then the back wall if
    there is one.  A tier has a lip whenever [front_wall_height] is not
    zero, also when it is negative. *)
Theorem X2_layout_order (adjustSize : Self -> R -> R) (s : Self) :
  renders s ->
  map panel_label (emitted (render adjustSize s)) =
    ("left side" :: "right side"
     :: flat_map (tier_labels s) (Py.range (num s))
     ++ (if include_back s then ["back wall"] else []))%string /\
  length (emitted (render adjustSize s)) =
    (2 + (if Req_dec_T (front_wall_height s) 0 then 1 else 2)
         * Z.to_nat (num s)
     + (if include_back s then 1 else 0))%nat.
Proof.
  intros Hr. rewrite (render_run adjustSize s Hr). cbn [emitted].
  assert (Hlabels :
    map panel_label (layout adjustSize s) =
    ("left side" :: "right side"
     :: flat_map (tier_labels s) (Py.range (num s))
     ++ (if include_back s then ["back wall"] else []))%string).
  { unfold layout. rewrite !map_app, shelf_boards_tier_labels.
    unfold side_panels, back_wall, sloped_sides, rectangular_sides.
    destruct (slope_top s), (include_back s); reflexivity. }
  split; [exact Hlabels|].
  rewrite <- (length_map panel_label), Hlabels. cbn [length].
  rewrite length_app, tier_labels_length, range_length.
  destruct (include_back s); cbn [length]; lia.
Qed.

Lemma X2_layout_order_witness :
  renders backed_shelf /\
  length (emitted (render adjustSize_walls backed_shelf)) = 9%nat.
Proof.
  assert (Hr : renders backed_shelf)
    by (apply renders_30; [reflexivity | discriminate]).
  split; [exact Hr|].
  rewrite (proj2 (X2_layout_order adjustSize_walls backed_shelf Hr)).
  unfold backed_shelf. cbn [front_wall_height include_back num].
  destruct (Req_dec_T 20 0); [lra | reflexivity].
Defined.

(** ** The seats of one side panel *)

Lemma finger_holes_tier (s : Self) (i : Z) :
  (0 <= i < num s)%Z ->
  nth_error (emitted (generate_finger_holes s)) (2 * Z.to_nat i)
  = Some (shelf_seat s i) /\
  nth_error (emitted (generate_finger_holes s)) (2 * Z.to_nat i + 1)
  = Some (lip_seat s i).
Proof.
  intros Hi. rewrite generate_finger_holes_run. apply seats_nth, Hi.
Qed.

(** X3.  In every tier the lip seat is anchored where the shelf seat
    ends: from the anchor of the shelf seat, [sl + thickness / 2] along the
    seat, which runs at [- radians], and [thickness / 2] across it.  The two
    anchors are therefore the same distance apart at every angle. *)
Theorem X3_lip_seat_follows_shelf_seat (s : Self) (i : Z) :
  (0 <= i < num s)%Z ->
  exists seat lip,
    nth_error (emitted (generate_finger_holes s)) (2 * Z.to_nat i)
    = Some seat /\
    nth_error (emitted (generate_finger_holes s)) (2 * Z.to_nat i + 1)
    = Some lip /\
    let a := radians s in
    let dx := pos_x lip - pos_x seat in
    let dy := pos_y lip - pos_y seat in
    dx * cos a - dy * sin a = sl s + 0.5 * thickness s /\
    dx * sin a + dy * cos a = 0.5 * thickness s /\
    dx ^ 2 + dy ^ 2 = (sl s + 0.5 * thickness s) ^ 2 + (0.5 * thickness s) ^ 2.
Proof.
  intros Hi. destruct (finger_holes_tier s i Hi) as [Hseat Hlip].
  exists (shelf_seat s i), (lip_seat s i).
  split; [exact Hseat|]. split; [exact Hlip|].
  cbn [shelf_seat lip_seat pos_x pos_y]. rewrite cos_neg, sin_neg.
  pose proof (sin2_cos2 (radians s)) as Hunit. unfold Rsqr in Hunit.
  generalize dependent (cos (radians s)). intros c.
  generalize (sin (radians s)). intros sn Hunit.
  generalize (seat_y s i) (Rabs (0.5 * thickness s * sn)) (sl s) (thickness s).
  intros y0 x0 u t. cbv zeta.
  repeat split.
  - transitivity ((u + 0.5 * t) * (sn * sn + c * c));
      [ring | rewrite Hunit; ring].
  - transitivity (0.5 * t * (sn * sn + c * c));
      [ring | rewrite Hunit; ring].
  - transitivity (((u + 0.5 * t) ^ 2 + (0.5 * t) ^ 2) * (sn * sn + c * c));
      [ring | rewrite Hunit; ring].
Qed.

Lemma X3_lip_seat_follows_shelf_seat_witness :
  (0 <= 1 < num default_shelf)%Z /\
  exists seat lip,
    nth_error (emitted (generate_finger_holes default_shelf)) 2 = Some seat /\
    nth_error (emitted (generate_finger_holes default_shelf)) 3 = Some lip.
Proof.
  assert (Hi : (0 <= 1 < num default_shelf)%Z)
    by (unfold default_shelf; simpl; lia).
  split; [exact Hi|].
  destruct (X3_lip_seat_follows_shelf_seat default_shelf 1 Hi)
    as [seat [lip [Hseat [Hlip _]]]].
  exists seat, lip. split; [exact Hseat | exact Hlip].
Defined.

(** X4.  The shelf seats of one panel all have the same [pos_x], and from
    one tier to the next [pos_y] rises by the same step,
    [(h - |hs|) / (num - 0.5)]; the seats climb strictly whenever the
    offset [hs] of the first seat is less than [h] in absolute value. *)
Theorem X4_seats_evenly_spaced (s : Self) (i : Z) :
  (0 <= i)%Z -> (i + 1 < num s)%Z ->
  exists lower upper,
    nth_error (emitted (generate_finger_holes s)) (2 * Z.to_nat i)
    = Some lower /\
    nth_error (emitted (generate_finger_holes s)) (2 * Z.to_nat (i + 1))
    = Some upper /\
    pos_x upper = pos_x lower /\
    pos_y upper - pos_y lower
    = (h s - Rabs (seat_offset s)) / (IZR (num s) - 0.5) /\
    (Rabs (seat_offset s) < h s -> pos_y lower < pos_y upper).
Proof.
  intros Hi Hnext.
  destruct (finger_holes_tier s i ltac:(lia)) as [Hlow _].
  destruct (finger_holes_tier s (i + 1) ltac:(lia)) as [Hup _].
  exists (shelf_seat s i), (shelf_seat s (i + 1)).
  split; [exact Hlow|]. split; [exact Hup|]. split; [reflexivity|].
  assert (Hstep : pos_y (shelf_seat s (i + 1)) - pos_y (shelf_seat s i)
                  = (h s - Rabs (seat_offset s)) / (IZR (num s) - 0.5)).
  { cbn [shelf_seat pos_y]. unfold seat_y. rewrite plus_IZR.
    pose proof (half_off (num s)) as Hd.
    destruct (Rlt_dec (radians s) 0); field; exact Hd. }
  split; [exact Hstep|]. intros Hroom.
  assert (Hpos : 0 < (h s - Rabs (seat_offset s)) / (IZR (num s) - 0.5)).
  { apply Rdiv_lt_0_compat; [lra|].
    assert (1 <= IZR (num s)) by (apply IZR_le; lia). lra. }
  lra.
Qed.

Lemma X4_seats_evenly_spaced_witness :
  (0 <= 0)%Z /\ (0 + 1 < num default_shelf)%Z /\
  exists lower upper,
    nth_error (emitted (generate_finger_holes default_shelf)) 0 = Some lower /\
    nth_error (emitted (generate_finger_holes default_shelf)) 2 = Some upper /\
    pos_x upper = pos_x lower.
Proof.
  assert (H0 : (0 <= 0)%Z) by lia.
  assert (H1 : (0 + 1 < num default_shelf)%Z)
    by (unfold default_shelf; simpl; lia).
  split; [exact H0|]. split; [exact H1|].
  destruct (X4_seats_evenly_spaced default_shelf 0 H0 H1)
    as [lower [upper [Hlow [Hup [Hx _]]]]].
  exists lower, upper. split; [exact Hlow|]. split; [exact Hup | exact Hx].
Defined.

(** X5.  When the floors do not lean backwards, the first seat offset [hs]
    lies within the height of the panel and [cos(radians) * thickness] is
    not negative, every shelf seat is anchored within the height of the
    panel: no lower than [hs - cos(radians) * thickness / 2] and no higher
    than [h]. *)
Theorem X5_seats_within_panel (s : Self) (i : Z) :
  (0 <= i < num s)%Z ->
  0 <= radians s ->
  0 <= seat_offset s <= h s ->
  0 <= cos (radians s) * thickness s ->
  exists seat,
    nth_error (emitted (generate_finger_holes s)) (2 * Z.to_nat i)
    = Some seat /\
    seat_offset s - cos (radians s) * 0.5 * thickness s <= pos_y seat <= h s.
Proof.
  intros Hi Hrad Hhs Hct.
  destruct (finger_holes_tier s i Hi) as [Hseat _].
  exists (shelf_seat s i). split; [exact Hseat|].
  cbn [shelf_seat pos_y]. unfold seat_y.
  destruct (Rlt_dec (radians s) 0) as [Hneg|_]; [lra|].
  rewrite (Rabs_right (seat_offset s)) by lra.
  assert (Hi0 : 0 <= IZR i) by (apply IZR_le; lia).
  assert (Hi1 : IZR i <= IZR (num s) - 1).
  { rewrite <- minus_IZR. apply IZR_le. lia. }
  set (d := IZR (num s) - 0.5) in *.
  assert (Hd : 0 < d) by (unfold d; lra).
  set (room := h s - seat_offset s) in *.
  assert (Hroom : 0 <= room) by (unfold room; lra).
  assert (Hq0 : 0 <= IZR i * room / d).
  { apply Rmult_le_pos; [apply Rmult_le_pos; assumption|].
    left. apply Rinv_0_lt_compat, Hd. }
  assert (Hq1 : IZR i * room / d <= room).
  { apply (Rmult_le_reg_r d); [exact Hd|].
    replace (IZR i * room / d * d) with (IZR i * room) by (field; lra).
    assert (IZR i <= d) by (unfold d; lra). nra. }
  unfold room in *. split; lra.
Qed.

Lemma X5_seats_within_panel_witness :
  let s := resolved adjustSize_walls level_shelf in
  (0 <= 2 < num s)%Z /\ 0 <= radians s /\
  0 <= seat_offset s <= h s /\
  exists seat,
    nth_error (emitted (generate_finger_holes s)) 4 = Some seat /\
    pos_y seat <= 300.
Proof.
  intros s.
  assert (Hi : (0 <= 2 < num s)%Z) by (unfold s, level_shelf; simpl; lia).
  assert (Hrad : radians s = 0) by (unfold s; simpl; apply radians_0).
  assert (Hoff : seat_offset s = 3).
  { unfold seat_offset. rewrite Hrad, sin_0, cos_0.
    unfold s, level_shelf. simpl. lra. }
  assert (Ha : 0 <= radians s) by (rewrite Hrad; lra).
  assert (Hhs : 0 <= seat_offset s <= h s)
    by (rewrite Hoff; unfold s, level_shelf; simpl; lra).
  assert (Hct : 0 <= cos (radians s) * thickness s)
    by (rewrite Hrad, cos_0; unfold s, level_shelf; simpl; lra).
  split; [exact Hi|]. split; [exact Ha|]. split; [exact Hhs|].
  destruct (X5_seats_within_panel s 2 Hi Ha Hhs Hct) as [seat [Hn [_ Hy]]].
  exists seat. split; [exact Hn | exact Hy].
Defined.

(** ** The cut of a sloped side *)

Lemma sloped_side_emitted (s : Self) (w ht : R) (p : Panel) :
  In p (emitted (generate_sloped_sides w ht s)) ->
  num s <> 0%Z /\ sin (radians s) <> 0 /\
  panel_borders p = sloped_borders s w ht.
Proof.
  intros Hin.
  destruct (Z.eq_dec (num s) 0) as [Hn|Hn].
  { rewrite generate_sloped_sides_no_tier in Hin by exact Hn. destruct Hin. }
  destruct (Req_dec_T (sin (radians s)) 0) as [Hs|Hs].
  { rewrite generate_sloped_sides_flat in Hin by assumption. destruct Hin. }
  rewrite generate_sloped_sides_run in Hin by assumption.
  split; [exact Hn|]. split; [exact Hs|].
  destruct Hin as [<-|[<-|[]]]; reflexivity.
Qed.

Lemma cut_is_right_triangle (s : Self) (w ht : R) :
  sin (radians s) <> 0 ->
  hypotenuse s w ht ^ 2 =
  horizontal_cut s w ht ^ 2 + vertical_cut s w ht ^ 2.
Proof.
  intros Hs. unfold hypotenuse, horizontal_cut, vertical_cut.
  destruct (Rlt_dec w (naive_horizontal_cut s ht)).
  - rewrite <- (Rsqr_pow2 (sqrt _)), Rsqr_sqrt; [reflexivity|].
    apply Rplus_le_le_0_compat; apply pow2_ge_0.
  - unfold naive_horizontal_cut.
    rewrite <- (Rsqr_pow2 (sqrt _)), Rsqr_sqrt; [ring|].
    apply naive_cut_nonneg; [exact Hs | apply SIN_bound].
Qed.

(** X6.  On every sloped side that is emitted, the cut corner is a right
    triangle: the square of the third edge, the hypotenuse, is the sum of
    the squares of what the cut takes off the width (the first edge less
    the fourth) and off the height (the fifth edge less the second). *)
Theorem X6_cut_is_right_triangle (s : Self) (w ht : R) (p : Panel) :
  In p (emitted (generate_sloped_sides w ht s)) ->
  exists front hyp top,
    edge_lengths (panel_borders p) = [w; front; hyp; top; ht] /\
    hyp ^ 2 = (w - top) ^ 2 + (ht - front) ^ 2.
Proof.
  intros Hin. destruct (sloped_side_emitted s w ht p Hin) as [_ [Hs Hb]].
  exists (ht - vertical_cut s w ht), (hypotenuse s w ht),
         (w - horizontal_cut s w ht).
  split; [rewrite Hb; reflexivity|].
  rewrite (cut_is_right_triangle s w ht Hs). ring.
Qed.

Lemma X6_cut_is_right_triangle_witness :
  In sloped_left_side
     (emitted (generate_sloped_sides 100 300
                 (resolved adjustSize_walls sloped_shelf))) /\
  exists front hyp top,
    edge_lengths (panel_borders sloped_left_side)
    = [100; front; hyp; top; 300] /\
    hyp ^ 2 = (100 - top) ^ 2 + (300 - front) ^ 2.
Proof.
  assert (Hin : In sloped_left_side
                   (emitted (generate_sloped_sides 100 300
                               (resolved adjustSize_walls sloped_shelf)))).
  { rewrite generate_sloped_sides_run.
    - left. reflexivity.
    - discriminate.
    - change (radians (resolved adjustSize_walls sloped_shelf))
        with (Py.math_radians 30).
      rewrite sin_30. lra. }
  split; [exact Hin|].
  exact (X6_cut_is_right_triangle _ 100 300 sloped_left_side Hin).
Defined.

(** X7.  On every sloped side that is emitted at least one unit wide, the
    top edge is neither negative nor longer than the width, whether the cut
    was clamped or not. *)
Theorem X7_top_edge_within_width (s : Self) (w ht : R) (p : Panel) :
  In p (emitted (generate_sloped_sides w ht s)) ->
  1 <= w ->
  exists top, top_edge p = Some top /\ 0 <= top <= w.
Proof.
  intros Hin Hw. destruct (sloped_side_emitted s w ht p Hin) as [_ [_ Hb]].
  exists (w - horizontal_cut s w ht).
  split; [unfold top_edge; rewrite Hb; reflexivity|].
  assert (Hnaive : 0 <= naive_horizontal_cut s ht) by apply sqrt_pos.
  unfold horizontal_cut.
  destruct (Rlt_dec w (naive_horizontal_cut s ht)); lra.
Qed.

Lemma X7_top_edge_within_width_witness :
  In sloped_left_side
     (emitted (generate_sloped_sides 100 300
                 (resolved adjustSize_walls sloped_shelf))) /\
  1 <= 100 /\
  exists top, top_edge sloped_left_side = Some top /\ 0 <= top <= 100.
Proof.
  destruct X6_cut_is_right_triangle_witness as [Hin _].
  assert (Hw : 1 <= 100) by lra.
  split; [exact Hin|]. split; [exact Hw|].
  destruct (X7_top_edge_within_width _ 100 300 sloped_left_side Hin Hw)
    as [top [Htop Hrange]].
  exists top. split; [exact Htop | exact Hrange].
Defined.

(** X8.  The cut follows the slope of the floors.  For floors leaning
    forwards at an acute angle, a tier at least as high as its lip and a
    panel at least one unit wide, the hypotenuse of every emitted sloped
    side, projected on the vertical and on the horizontal, gives back what
    the cut takes off the height and off the width. *)
Theorem X8_cut_follows_slope (s : Self) (w ht : R) (p : Panel) :
  In p (emitted (generate_sloped_sides w ht s)) ->
  0 < sin (radians s) -> 0 < cos (radians s) ->
  front_wall_height s <= ht / IZR (num s) ->
  1 <= w ->
  exists front hyp top,
    edge_lengths (panel_borders p) = [w; front; hyp; top; ht] /\
    0 <= hyp /\
    hyp * sin (radians s) = ht - front /\
    hyp * cos (radians s) = w - top.
Proof.
  intros Hin Hsin Hcos Htier Hw.
  destruct (sloped_side_emitted s w ht p Hin) as [_ [_ Hb]].
  exists (ht - vertical_cut s w ht), (hypotenuse s w ht),
         (w - horizontal_cut s w ht).
  split; [rewrite Hb; reflexivity|].
  pose proof (sin2_cos2 (radians s)) as Hunit. unfold Rsqr in Hunit.
  unfold hypotenuse, vertical_cut, horizontal_cut.
  destruct (Rlt_dec w (naive_horizontal_cut s ht)) as [Hfall|Hfit].
  - (* the clamped cut *)
    assert (Hroot : sqrt ((w - 1) ^ 2 + ((w - 1) * tan (radians s)) ^ 2)
                    = (w - 1) / cos (radians s)).
    { replace ((w - 1) ^ 2 + ((w - 1) * tan (radians s)) ^ 2)
        with (((w - 1) / cos (radians s)) ^ 2).
      - apply sqrt_pow2. apply Rmult_le_pos; [lra|].
        left. apply Rinv_0_lt_compat, Hcos.
      - unfold tan. field_simplify; [|lra|lra].
        replace (sin (radians s) ^ 2)
          with (1 - cos (radians s) * cos (radians s)) by (simpl; lra).
        field. lra. }
    rewrite Hroot. split; [|split].
    + apply Rmult_le_pos; [lra|]. left. apply Rinv_0_lt_compat, Hcos.
    + unfold tan. field. lra.
    + field. lra.
  - (* the naive cut *)
    unfold naive_horizontal_cut, naive_hypotenuse.
    set (v := naive_vertical_cut s ht).
    assert (Hv : 0 <= v) by (unfold v, naive_vertical_cut; lra).
    assert (Hhyp : 0 <= v / sin (radians s)).
    { apply Rmult_le_pos; [exact Hv|].
      left. apply Rinv_0_lt_compat, Hsin. }
    split; [exact Hhyp|]. split; [field; lra|].
    replace ((v / sin (radians s)) ^ 2 - v ^ 2)
      with ((v / sin (radians s) * cos (radians s)) ^ 2).
    + rewrite sqrt_pow2; [ring|].
      apply Rmult_le_pos; [exact Hhyp | lra].
    + replace (v ^ 2)
        with ((v / sin (radians s)) ^ 2
              * (sin (radians s) * sin (radians s)))
        by (field; lra).
      replace (sin (radians s) * sin (radians s))
        with (1 - cos (radians s) * cos (radians s)) by lra.
      ring.
Qed.

Lemma X8_cut_follows_slope_witness :
  let s := resolved adjustSize_walls sloped_shelf in
  In sloped_left_side (emitted (generate_sloped_sides 100 300 s)) /\
  0 < sin (radians s) /\ 0 < cos (radians s) /\
  exists front hyp top,
    edge_lengths (panel_borders sloped_left_side)
    = [100; front; hyp; top; 300] /\
    hyp * cos (radians s) = 100 - top.
Proof.
  intros s. destruct X6_cut_is_right_triangle_witness as [Hin _].
  assert (Hrad : radians s = Py.math_radians 30) by reflexivity.
  pose proof sqrt_3_bounds as Hsqrt.
  assert (Hsin : 0 < sin (radians s)) by (rewrite Hrad, sin_30; lra).
  assert (Hcos : 0 < cos (radians s)) by (rewrite Hrad, cos_30; lra).
  assert (Htier : front_wall_height s <= 300 / IZR (num s))
    by (unfold s, sloped_shelf; simpl; lra).
  assert (Hw : 1 <= 100) by lra.
  split; [exact Hin|]. split; [exact Hsin|]. split; [exact Hcos|].
  destruct (X8_cut_follows_slope s 100 300 sloped_left_side
              Hin Hsin Hcos Htier Hw)
    as [front [hyp [top [Hb [_ [_ Hx]]]]]].
  exists front, hyp, top. split; [exact Hb | exact Hx].
Defined.

(** ** The slant length and the attributes *)

Lemma render_self_after (adjustSize : Self -> R -> R) (s : Self) :
  cos (Py.math_radians (angle s)) <> 0 ->
  self_after (render adjustSize s) = resolved adjustSize s.
Proof.
  intros Hcos.
  destruct (render_cases s) as [Hr | [Hz | [_ [Hslope Hstop]]]].
  - now rewrite render_run.
  - contradiction.
  - now rewrite render_sloped_stops.
Qed.

Lemma radians_opp (d : R) : Py.math_radians (- d) = - Py.math_radians d.
Proof. unfold Py.math_radians. lra. Qed.

(** X9.  Turning floors that lean forwards by some angle to lean backwards
    by the same angle lengthens the shelves by
    [front_wall_height * tan(radians)]: the lip takes its share of the depth
    only when the floors lean forwards. *)
Theorem X9_slant_length_backwards (adjustSize : Self -> R -> R) (s : Self) :
  (forall deg l, adjustSize (with_angle s deg) l = adjustSize s l) ->
  cos (Py.math_radians (angle s)) <> 0 ->
  0 <= sin (Py.math_radians (angle s)) ->
  0 <= front_wall_height s ->
  sl (self_after (render adjustSize (with_angle s (- angle s)))) =
  sl (self_after (render adjustSize s))
  + front_wall_height s * tan (Py.math_radians (angle s)).
Proof.
  intros Hadj Hcos Hsin Hfront.
  assert (Hcos' : cos (Py.math_radians (angle (with_angle s (- angle s))))
                  <> 0)
    by (cbn [with_angle angle]; rewrite radians_opp, cos_neg; exact Hcos).
  rewrite (render_self_after adjustSize _ Hcos').
  rewrite (render_self_after adjustSize s Hcos).
  cbn [resolved set_sl sl]. unfold slant_length, depth.
  cbn [with_angle angle outside include_back y thickness front_wall_height].
  rewrite !Hadj, radians_opp, cos_neg, sin_neg, Rabs_Ropp.
  set (a := Py.math_radians (angle s)) in *.
  assert (Hlip : 0 <= sin a * front_wall_height s)
    by (apply Rmult_le_pos; assumption).
  replace (Py.max 0 (- sin a * front_wall_height s)) with 0
    by (unfold Py.max;
        destruct (Rlt_dec 0 (- sin a * front_wall_height s)); lra).
  replace (Py.max 0 (sin a * front_wall_height s))
    with (sin a * front_wall_height s)
    by (unfold Py.max;
        destruct (Rlt_dec 0 (sin a * front_wall_height s)); lra).
  unfold tan. field. exact Hcos.
Qed.

Lemma X9_slant_length_backwards_witness :
  sl (self_after (render adjustSize_walls backward_shelf)) =
  sl (self_after (render adjustSize_walls default_shelf))
  + 20 * tan (Py.math_radians 30).
Proof.
  pose proof sqrt_3_bounds as Hsqrt.
  assert (Hadj : forall deg l,
             adjustSize_walls (with_angle default_shelf deg) l
             = adjustSize_walls default_shelf l) by reflexivity.
  assert (Hcos : cos (Py.math_radians (angle default_shelf)) <> 0)
    by (change (angle default_shelf) with 30; rewrite cos_30; lra).
  assert (Hsin : 0 <= sin (Py.math_radians (angle default_shelf)))
    by (change (angle default_shelf) with 30; rewrite sin_30; lra).
  assert (Hfront : 0 <= front_wall_height default_shelf)
    by (unfold default_shelf; simpl; lra).
  exact (X9_slant_length_backwards adjustSize_walls default_shelf
           Hadj Hcos Hsin Hfront).
Defined.

Section Stale.

Variable adjustSize : Self -> R -> R.
Variable s : Self.

(** The adjustment does not read the two derived attributes. *)
Hypothesis adjust_arguments :
  forall r v l, adjustSize (set_sl (set_radians s r) v) l = adjustSize s l.

Variables (r0 v0 : R).

Lemma stale_resolved :
  resolved adjustSize (set_sl (set_radians s r0) v0) = resolved adjustSize s.
Proof.
  unfold resolved, slant_length, depth.
  cbn [set_sl set_radians x y h thickness outside num front_wall_height
       angle include_back slope_top radians sl].
  rewrite !adjust_arguments. reflexivity.
Qed.

Lemma stale_layout :
  layout adjustSize (set_sl (set_radians s r0) v0) = layout adjustSize s.
Proof.
  unfold layout, side_panels, back_wall, inner_x.
  rewrite stale_resolved. unfold depth.
  cbn [set_sl set_radians x y h thickness outside num front_wall_height
       angle include_back slope_top radians sl].
  rewrite !adjust_arguments. reflexivity.
Qed.

Lemma stale_render :
  emitted (render adjustSize (set_sl (set_radians s r0) v0))
  = emitted (render adjustSize s) /\
  result (render adjustSize (set_sl (set_radians s r0) v0))
  = result (render adjustSize s).
Proof.
  destruct (render_cases s) as [Hr | [Hz | [Hc [Hslope Hstop]]]].
  - rewrite (render_run adjustSize s Hr).
    rewrite (render_run adjustSize (set_sl (set_radians s r0) v0)) by exact Hr.
    rewrite stale_layout. split; reflexivity.
  - rewrite (render_upright adjustSize s Hz).
    rewrite (render_upright adjustSize (set_sl (set_radians s r0) v0))
      by exact Hz.
    split; reflexivity.
  - rewrite (render_sloped_stops adjustSize s Hc Hslope Hstop).
    rewrite (render_sloped_stops adjustSize (set_sl (set_radians s r0) v0))
      by assumption.
    split; reflexivity.
Qed.

End Stale.

(** X10.  [render] assigns [radians] and [sl] before anything reads them:
    whatever the two attributes held before, the panels emitted and the
    exception raised, if any, are the same.  The adjustment of the
    framework is taken not to read them. *)
Theorem X10_derived_attributes_assigned_first
    (adjustSize : Self -> R -> R) (s : Self) (r0 v0 : R) :
  (forall r v l, adjustSize (set_sl (set_radians s r) v) l = adjustSize s l) ->
  emitted (render adjustSize (set_sl (set_radians s r0) v0))
  = emitted (render adjustSize s) /\
  result (render adjustSize (set_sl (set_radians s r0) v0))
  = result (render adjustSize s).
Proof. intros Hadj. now apply stale_render. Qed.

Lemma X10_derived_attributes_assigned_first_witness :
  emitted (render adjustSize_walls
             (set_sl (set_radians default_shelf 1) (-5)))
  = emitted (render adjustSize_walls default_shelf).
Proof.
  apply (X10_derived_attributes_assigned_first adjustSize_walls
           default_shelf 1 (-5)).
  reflexivity.
Defined.

(** X11.  [render] can be run again: it keeps its adjusted dimensions in
    local variables and assigns [radians] and [sl] only, so a second run on
    the attributes the first one leaves behind emits the same panels and
    raises the same exception, if any. *)
Theorem X11_render_again (adjustSize : Self -> R -> R) (s : Self) :
  (forall r v l, adjustSize (set_sl (set_radians s r) v) l = adjustSize s l) ->
  emitted (render adjustSize (self_after (render adjustSize s)))
  = emitted (render adjustSize s) /\
  result (render adjustSize (self_after (render adjustSize s)))
  = result (render adjustSize s).
Proof.
  intros Hadj.
  assert (Hafter : exists r v,
             self_after (render adjustSize s) = set_sl (set_radians s r) v).
  { destruct (render_cases s) as [Hr | [Hz | [Hc [Hslope Hstop]]]].
    - rewrite render_run by exact Hr. now eexists _, _.
    - rewrite render_upright by exact Hz.
      now exists (Py.math_radians (angle s)), (sl s).
    - rewrite render_sloped_stops by assumption. now eexists _, _. }
  destruct Hafter as [r [v ->]]. now apply stale_render.
Qed.

Lemma X11_render_again_witness :
  emitted (render adjustSize_walls
             (self_after (render adjustSize_walls backed_shelf)))
  = emitted (render adjustSize_walls backed_shelf).
Proof.
  apply (X11_render_again adjustSize_walls backed_shelf). reflexivity.
Defined.

(** ** Edges, empty shelves and level floors *)

(** X12.  On every side panel of a layout, in either mode, the edges are
    plain, except that with a back wall the last edge, and no other,
    carries finger joints. *)
Theorem X12_side_edges (adjustSize : Self -> R -> R) (s : Self) (p : Panel) :
  In p (emitted (render adjustSize s)) ->
  is_side_panel p = true ->
  count_letter "f"%char (panel_edges p) = (if include_back s then 1 else 0)%nat /\
  (count_letter "e"%char (panel_edges p) + count_letter "f"%char (panel_edges p)
   = String.length (panel_edges p))%nat /\
  (include_back s = true ->
   String.get (String.length (panel_edges p) - 1) (panel_edges p)
   = Some "f"%char).
Proof.
  intros Hin Hside.
  destruct (render_emitted adjustSize s p Hin) as [_ Hrun].
  rewrite Hrun in Hin. cbn [emitted] in Hin.
  apply layout_side_panel in Hin; [|exact Hside].
  unfold side_panels, sloped_sides, rectangular_sides in Hin.
  change (include_back (resolved adjustSize s)) with (include_back s) in Hin.
  destruct (slope_top s), (include_back s);
    destruct Hin as [<-|[<-|[]]];
    (split; [reflexivity|]; split; [reflexivity|]);
    intros E; try discriminate E; reflexivity.
Qed.

Lemma X12_side_edges_witness :
  In default_left_side (emitted (render adjustSize_walls default_shelf)) /\
  count_letter "f"%char (panel_edges default_left_side) = 0%nat.
Proof.
  split; [exact default_left_side_emitted|].
  exact (proj1 (X12_side_edges adjustSize_walls default_shelf
                  default_left_side default_left_side_emitted eq_refl)).
Defined.

(** X13.  A shelf count of zero or less is taken as no shelves: with
    rectangular sides [render] raises nothing and emits the two sides
    without any joint hole, then the back wall if there is one, and no shelf
    or lip. *)
Theorem X13_no_shelves (adjustSize : Self -> R -> R) (s : Self) :
  (num s <= 0)%Z ->
  slope_top s = false ->
  cos (Py.math_radians (angle s)) <> 0 ->
  result (render adjustSize s) = inr tt /\
  emitted (render adjustSize s) =
    RectangularWall (depth adjustSize s) (h s)
      (if include_back s then "eeef" else "eeee")%string [] "up" "left side"
    :: RectangularWall (depth adjustSize s) (h s)
         (if include_back s then "eeef" else "eeee")%string [] "up"
         "right side"
    :: (if include_back s
        then [RectangularWall (inner_x adjustSize s) (h s) "eFeF" [] "up"
                              "back wall"]
        else []).
Proof.
  intros Hnum Hrect Hcos.
  assert (Hr : renders s)
    by (split; [exact Hcos | rewrite Hrect; discriminate]).
  rewrite (render_run adjustSize s Hr). cbn [result emitted].
  split; [reflexivity|].
  assert (Hrange : Py.range (num s) = [])
    by (unfold Py.range; replace (Z.to_nat (num s)) with 0%nat by lia;
        reflexivity).
  unfold layout, side_panels, rectangular_sides, back_wall, shelf_boards, seats.
  rewrite Hrect.
  change (num (resolved adjustSize s)) with (num s).
  change (include_back (resolved adjustSize s)) with (include_back s).
  rewrite Hrange.
  destruct (Py.truthy _), (include_back s); reflexivity.
Qed.

Lemma X13_no_shelves_witness :
  (num empty_shelf <= 0)%Z /\
  emitted (render adjustSize_walls empty_shelf) =
    [RectangularWall 100 300 "eeee" [] "up" "left side";
     RectangularWall 100 300 "eeee" [] "up" "right side"].
Proof.
  assert (Hn : (num empty_shelf <= 0)%Z)
    by (unfold empty_shelf; simpl; lia).
  assert (Hcos : cos (Py.math_radians (angle empty_shelf)) <> 0).
  { change (angle empty_shelf) with 0. rewrite radians_0, cos_0. lra. }
  split; [exact Hn|].
  exact (proj2 (X13_no_shelves adjustSize_walls empty_shelf Hn eq_refl Hcos)).
Defined.

(** X15.  With level floors and rectangular sides a shelf is as deep as
    the side panel less one thickness, and the lowest shelf seat of each
    side lies flat along the lower edge: anchored at [pos_x = 0], half a
    thickness up, at orientation [0]. *)
Theorem X15_level_floors (adjustSize : Self -> R -> R) (s : Self) (p : Panel) :
  angle s = 0 ->
  (1 <= num s)%Z ->
  In p (emitted (render adjustSize s)) ->
  is_side_panel p = true ->
  sl (self_after (render adjustSize s)) = depth adjustSize s - thickness s /\
  exists seat,
    nth_error (panel_holes p) 0 = Some seat /\
    pos_x seat = 0 /\
    pos_y seat = 0.5 * thickness s /\
    hole_length seat = depth adjustSize s - thickness s /\
    hole_angle seat = 0.
Proof.
  intros Ha Hnum Hin Hside.
  destruct (render_emitted adjustSize s p Hin) as [_ Hrun].
  rewrite Hrun in Hin. rewrite Hrun. cbn [emitted self_after] in *.
  apply layout_side_panel in Hin; [|exact Hside].
  rewrite (side_panel_holes adjustSize s p Hin).
  assert (Hsl : slant_length adjustSize s = depth adjustSize s - thickness s).
  { unfold slant_length.
    rewrite Ha, radians_0, cos_0, sin_0, Rabs_R0, Rmult_0_l.
    unfold Py.max. destruct (Rlt_dec 0 0); lra. }
  split; [exact Hsl|].
  destruct (seats_nth (resolved adjustSize s) 0) as [Hseat _];
    [cbn [resolved set_sl set_radians num]; lia|].
  exists (shelf_seat (resolved adjustSize s) 0).
  split; [exact Hseat|].
  unfold shelf_seat, seat_y, seat_offset.
  cbn [resolved set_sl set_radians radians sl thickness angle h num
       pos_x pos_y hole_length hole_angle].
  rewrite Ha, radians_0, sin_0, cos_0, Hsl.
  destruct (Rlt_dec 0 0) as [Hlt|_]; [lra|].
  rewrite Rmult_0_r, Rabs_R0.
  repeat split; lra.
Qed.

Lemma X15_level_floors_witness :
  let p := RectangularWall 100 300 "eeee"
             (seats (resolved adjustSize_walls level_shelf))
             "up" "left side" in
  angle level_shelf = 0 /\ (1 <= num level_shelf)%Z /\
  In p (emitted (render adjustSize_walls level_shelf)) /\
  sl (self_after (render adjustSize_walls level_shelf)) = 100 - 3.
Proof.
  intros p.
  assert (Hn : (1 <= num level_shelf)%Z)
    by (unfold level_shelf; simpl; lia).
  assert (Hin : In p (emitted (render adjustSize_walls level_shelf))).
  { rewrite (render_run adjustSize_walls level_shelf)
      by (apply renders_level; reflexivity).
    left. reflexivity. }
  split; [reflexivity|]. split; [exact Hn|]. split; [exact Hin|].
  exact (proj1 (X15_level_floors adjustSize_walls level_shelf p
                  eq_refl Hn Hin eq_refl)).
Defined.
